(** * Virtual disk handling (src/vhd.c): VHD footer, image classification,
      WIM member extraction.

    The C code is embedded function by function.  Unsigned C integers are
    values of [Z] with the wrap-around of their width written out; the packed
    [vhd_footer] struct is a record whose memory image on the little-endian
    host is given by [footer_bytes]; the global [iso_report] and the static
    flags [has_wimgapi]/[has_7z] are threaded as explicit state; calls into
    Windows and into the rest of Rufus are answered by an environment
    record. *)

From Stdlib Require Import ZArith List String Ascii Bool Lia.
Import ListNotations.
Local Open Scope Z_scope.

(* ------------------------------------------------------------------ *)
(** ** Bytes and fixed-width integers *)

(** Conversion of a value to [uintN_t]. *)
Definition to_uint (bits v : Z) : Z := v mod 2 ^ bits.

(** The [w] bytes a [w]-byte unsigned integer occupies in memory on the
    little-endian host, lowest address first. *)
Fixpoint le_bytes (w : nat) (v : Z) : list Z :=
  match w with
  | O => []
  | S w' => v mod 256 :: le_bytes w' (v / 256)
  end.

(** The unsigned integer held by a run of bytes in memory. *)
Fixpoint le_value (l : list Z) : Z :=
  match l with
  | [] => 0
  | b :: t => b + 256 * le_value t
  end.

(** [bswap_uint16], [bswap_uint32], [bswap_uint64]: the compiler intrinsics
    reverse the byte order of their (converted) argument. *)
Definition bswap (w : nat) (v : Z) : Z := le_value (rev (le_bytes w v)).
Definition bswap_uint16 := bswap 2.
Definition bswap_uint32 := bswap 4.
Definition bswap_uint64 := bswap 8.

(** [~x] on a [uint32_t]. *)
Definition not32 (x : Z) : Z := to_uint 32 (Z.lnot x).

(** A [char] array initialised from character constants. *)
Definition chars (s : string) : list Z :=
  map (fun c => Z.of_nat (nat_of_ascii c)) (list_ascii_of_string s).

(* ------------------------------------------------------------------ *)
(** ** Constants of vhd.c *)

Definition VHD_FOOTER_COOKIE : list Z := chars "conectix".
Definition VHD_FOOTER_FEATURES_RESERVED : Z := 0x00000002.
Definition VHD_FOOTER_FILE_FORMAT_V1_0 : Z := 0x00010000.
Definition VHD_FOOTER_DATA_OFFSET_FIXED_DISK : Z := 0xFFFFFFFFFFFFFFFF.
Definition VHD_FOOTER_CREATOR_HOST_OS_WINDOWS : list Z := chars "Wi2k".
Definition VHD_FOOTER_TYPE_FIXED_HARD_DISK : Z := 0x00000002.
Definition VHD_FOOTER_TYPE_DYNAMIC_HARD_DISK : Z := 0x00000003.
Definition VHD_FOOTER_TYPE_DIFFER_HARD_DISK : Z := 0x00000004.
Definition SECONDS_SINCE_JAN_1ST_2000 : Z := 946684800.
Definition conectix_str : list Z := VHD_FOOTER_COOKIE.
Definition sizeof_vhd_footer : Z := 512.

(* ------------------------------------------------------------------ *)
(** ** The footer struct *)

(** [struct vhd_footer], packed.  Integer fields hold the value the C code
    sees when it reads the field on the host (so a big-endian on-disk field
    is read through [bswap_*]).  The geometry union is used through its
    [chs] view only; [unique_id] is the sixteen bytes of the GUID read as
    one number. *)
Record vhd_footer := mk_vhd_footer {
  cookie : list Z;              (* char[8]      offset   0 *)
  features : Z;                 (* uint32_t     offset   8 *)
  file_format_version : Z;      (* uint32_t     offset  12 *)
  data_offset : Z;              (* uint64_t     offset  16 *)
  timestamp : Z;                (* uint32_t     offset  24 *)
  creator_app : list Z;         (* char[4]      offset  28 *)
  creator_version : Z;          (* uint32_t     offset  32 *)
  creator_host_os : list Z;     (* char[4]      offset  36 *)
  original_size : Z;            (* uint64_t     offset  40 *)
  current_size : Z;             (* uint64_t     offset  48 *)
  chs_cylinders : Z;            (* uint16_t     offset  56 *)
  chs_heads : Z;                (* uint8_t      offset  58 *)
  chs_sectors : Z;              (* uint8_t      offset  59 *)
  disk_type : Z;                (* uint32_t     offset  60 *)
  checksum : Z;                 (* uint32_t     offset  64 *)
  unique_id : Z;                (* uuid_t       offset  68 *)
  saved_state : Z;              (* uint8_t      offset  84 *)
  reserved : list Z             (* uint8_t[427] offset  85 *)
}.

(** [footer->checksum = v]. *)
Definition set_checksum (v : Z) (f : vhd_footer) : vhd_footer :=
  mk_vhd_footer (cookie f) (features f) (file_format_version f) (data_offset f)
    (timestamp f) (creator_app f) (creator_version f) (creator_host_os f)
    (original_size f) (current_size f) (chs_cylinders f) (chs_heads f)
    (chs_sectors f) (disk_type f) v (unique_id f) (saved_state f) (reserved f).

(** [(uint8_t* )footer]: the 512 bytes of the struct in memory. *)
Definition footer_bytes (f : vhd_footer) : list Z :=
  cookie f ++ le_bytes 4 (features f) ++ le_bytes 4 (file_format_version f)
  ++ le_bytes 8 (data_offset f) ++ le_bytes 4 (timestamp f)
  ++ creator_app f ++ le_bytes 4 (creator_version f) ++ creator_host_os f
  ++ le_bytes 8 (original_size f) ++ le_bytes 8 (current_size f)
  ++ le_bytes 2 (chs_cylinders f) ++ le_bytes 1 (chs_heads f)
  ++ le_bytes 1 (chs_sectors f) ++ le_bytes 4 (disk_type f)
  ++ le_bytes 4 (checksum f) ++ le_bytes 16 (unique_id f)
  ++ le_bytes 1 (saved_state f) ++ reserved f.

(** Cut the next [n] bytes off a buffer. *)
Definition split_at (n : nat) (l : list Z) : list Z * list Z :=
  (firstn n l, skipn n l).

(** The struct seen through a buffer that [ReadFile] filled with 512 bytes. *)
Definition footer_of_bytes (l : list Z) : vhd_footer :=
  let '(f_cookie, l) := split_at 8 l in
  let '(f_features, l) := split_at 4 l in
  let '(f_version, l) := split_at 4 l in
  let '(f_data_offset, l) := split_at 8 l in
  let '(f_timestamp, l) := split_at 4 l in
  let '(f_creator_app, l) := split_at 4 l in
  let '(f_creator_version, l) := split_at 4 l in
  let '(f_creator_host_os, l) := split_at 4 l in
  let '(f_original_size, l) := split_at 8 l in
  let '(f_current_size, l) := split_at 8 l in
  let '(f_cylinders, l) := split_at 2 l in
  let '(f_heads, l) := split_at 1 l in
  let '(f_sectors, l) := split_at 1 l in
  let '(f_disk_type, l) := split_at 4 l in
  let '(f_checksum, l) := split_at 4 l in
  let '(f_unique_id, l) := split_at 16 l in
  let '(f_saved_state, l) := split_at 1 l in
  mk_vhd_footer f_cookie (le_value f_features) (le_value f_version)
    (le_value f_data_offset) (le_value f_timestamp) f_creator_app
    (le_value f_creator_version) f_creator_host_os
    (le_value f_original_size) (le_value f_current_size)
    (le_value f_cylinders) (le_value f_heads) (le_value f_sectors)
    (le_value f_disk_type) (le_value f_checksum) (le_value f_unique_id)
    (le_value f_saved_state) (firstn 427 l).

(** The checksum loop shared by [AppendVHDFooter] and [IsHDImage]:
    [for (checksum=0, i=0; i<sizeof(vhd_footer); i++) checksum += bytes[i];]
    in [uint32_t] arithmetic. *)
Definition byte_sum32 (bytes : list Z) : Z :=
  fold_left (fun checksum b => to_uint 32 (checksum + b)) bytes 0.

(* ------------------------------------------------------------------ *)
(** ** AppendVHDFooter *)

(** [totalSectors = li.QuadPart / 512], clamped (lines 164-167). *)
Definition total_sectors (li : Z) : Z :=
  let totalSectors := to_uint 64 (Z.quot li 512) in
  if totalSectors >? 65535 * 16 * 255 then 65535 * 16 * 255 else totalSectors.

(** Local variables of the CHS computation. *)
Record chs_vars := mk_chs {
  v_sectorsPerTrack : Z;        (* uint8_t  *)
  v_heads : Z;                  (* uint8_t  *)
  v_cylinderTimesHeads : Z      (* uint32_t *)
}.

(** Lines 169-192, one binding per assignment. *)
Definition chs_select (totalSectors : Z) : chs_vars :=
  if totalSectors >=? 65535 * 16 * 63 then
    mk_chs 255 16 (to_uint 32 (totalSectors / 255))
  else
    let sectorsPerTrack := 17 in
    let cylinderTimesHeads := to_uint 32 (totalSectors / sectorsPerTrack) in
    let heads := to_uint 8 (to_uint 32 (cylinderTimesHeads + 1023) / 1024) in
    let heads := if heads <? 4 then 4 else heads in
    let s1 :=
      if (cylinderTimesHeads >=? to_uint 32 (heads * 1024)) || (heads >? 16)
      then mk_chs 31 16 (to_uint 32 (totalSectors / 31))
      else mk_chs sectorsPerTrack heads cylinderTimesHeads in
    if v_cylinderTimesHeads s1 >=? to_uint 32 (v_heads s1 * 1024)
    then mk_chs 63 16 (to_uint 32 (totalSectors / 63))
    else s1.

(** [cylinders = cylinderTimesHeads / heads] (line 193). *)
Definition chs_cylinders_of (s : chs_vars) : Z :=
  to_uint 16 (v_cylinderTimesHeads s / v_heads s).

(** What the environment hands to [AppendVHDFooter]. *)
Record footer_env := mk_footer_env {
  time32 : Z;                   (* _time32(NULL) *)
  rufus_version : Z * Z;        (* rufus_version[0], rufus_version[1] *)
  uuid_create : option Z        (* UuidCreate: the GUID, or failure *)
}.

(** Lines 143-196: the zeroed struct with every field the code assigns. *)
Definition footer_fields (e : footer_env) (li : Z) : vhd_footer :=
  let s := chs_select (total_sectors li) in
  {| cookie := conectix_str;
     features := bswap_uint32 VHD_FOOTER_FEATURES_RESERVED;
     file_format_version := bswap_uint32 VHD_FOOTER_FILE_FORMAT_V1_0;
     data_offset := bswap_uint64 VHD_FOOTER_DATA_OFFSET_FIXED_DISK;
     timestamp := bswap_uint32 (time32 e - SECONDS_SINCE_JAN_1ST_2000);
     creator_app := chars "rufu";
     creator_version :=
       bswap_uint32 (Z.lor (Z.shiftl (fst (rufus_version e)) 16)
                           (snd (rufus_version e)));
     creator_host_os := VHD_FOOTER_CREATOR_HOST_OS_WINDOWS;
     original_size := bswap_uint64 li;
     current_size := bswap_uint64 li;
     chs_cylinders := bswap_uint16 (chs_cylinders_of s);
     chs_heads := v_heads s;
     chs_sectors := v_sectorsPerTrack s;
     disk_type := bswap_uint32 VHD_FOOTER_TYPE_FIXED_HARD_DISK;
     checksum := 0;
     unique_id := match uuid_create e with
                  | Some u => to_uint 128 u
                  | None => 0
                  end;
     saved_state := 0;
     reserved := repeat 0 427 |}.

(** Lines 198-201: the checksum is computed over the populated struct and
    stored last. *)
Definition make_footer (e : footer_env) (li : Z) : vhd_footer :=
  let footer := footer_fields e li in
  let checksum := byte_sum32 (footer_bytes footer) in
  set_checksum (bswap_uint32 (not32 checksum)) footer.

(** What the system calls of [AppendVHDFooter] answer. *)
Record append_env := mk_append_env {
  append_open_ok : bool;        (* CreateFileU and SetFilePointerEx(FILE_END) *)
  calloc_ok : bool;
  WriteFile : bool * nat;       (* return value, bytes written *)
  append_footer_env : footer_env
}.

(** [AppendVHDFooter(vhd_path)] on the bytes of the file at [vhd_path]: the
    return value and the file afterwards. *)
Definition AppendVHDFooter (e : append_env) (image : list Z) : bool * list Z :=
  if negb (append_open_ok e) then (false, image)
  else if negb (calloc_ok e) then (false, image)
  else
    let li := Z.of_nat (List.length image) in
    let footer := make_footer (append_footer_env e) li in
    let '(ok, size) := WriteFile e in
    let image' := image ++ firstn size (footer_bytes footer) in
    if negb ok || negb (Nat.eqb size 512) then (false, image')
    else (true, image').

(* ------------------------------------------------------------------ *)
(** ** The global [iso_report] *)

Inductive bled_compression_type :=
| BLED_COMPRESSION_NONE
| BLED_COMPRESSION_XZ
| BLED_COMPRESSION_GZIP
| BLED_COMPRESSION_LZMA
| BLED_COMPRESSION_BZIP2
| BLED_COMPRESSION_LZW.

Definition is_none (t : bled_compression_type) : bool :=
  match t with BLED_COMPRESSION_NONE => true | _ => false end.

(** The fields of [iso_report] that vhd.c reads or writes. *)
Record iso_report_t := mk_iso_report {
  compression_type : bled_compression_type;
  is_bootable_img : bool;
  projected_size : Z;           (* uint64_t *)
  is_vhd : bool
}.

Definition set_compression_type t (r : iso_report_t) :=
  mk_iso_report t (is_bootable_img r) (projected_size r) (is_vhd r).
Definition set_is_bootable_img b (r : iso_report_t) :=
  mk_iso_report (compression_type r) b (projected_size r) (is_vhd r).
Definition set_projected_size n (r : iso_report_t) :=
  mk_iso_report (compression_type r) (is_bootable_img r) n (is_vhd r).
Definition set_is_vhd b (r : iso_report_t) :=
  mk_iso_report (compression_type r) (is_bootable_img r) (projected_size r) b.

(* ------------------------------------------------------------------ *)
(** ** IsCompressedBootableImage *)

Record comp_assoc := mk_comp_assoc {
  ext : string;
  type : bled_compression_type
}.

Definition blah : list comp_assoc :=
  [ mk_comp_assoc ".xz" BLED_COMPRESSION_XZ;
    mk_comp_assoc ".gz" BLED_COMPRESSION_GZIP;
    mk_comp_assoc ".lzma" BLED_COMPRESSION_LZMA;
    mk_comp_assoc ".bz2" BLED_COMPRESSION_BZIP2;
    mk_comp_assoc ".Z" BLED_COMPRESSION_LZW ].

(** [*p == '.'] for [p = &path[i]]. *)
Definition is_dot_at (path : string) (i : nat) : bool :=
  match String.get i path with
  | Some c => Ascii.eqb c "."
  | None => false
  end.

(** [for (p = ...; ( *p != '.') && (p != path); p--);] with [p] as an index
    into [path]: the loop stops on a dot or at index 0. *)
Fixpoint scan_back (path : string) (p : nat) : nat :=
  match p with
  | O => O
  | S p' => if is_dot_at path p then p else scan_back path p'
  end.

(** The C string that starts at [&path[p]]. *)
Definition tail_from (path : string) (p : nat) : string :=
  String.substring p (String.length path - p) path.

(** The table loop: first entry whose [ext] compares equal under [strcmp]. *)
Fixpoint match_ext (p : string) (table : list comp_assoc)
  : option bled_compression_type :=
  match table with
  | [] => None
  | a :: rest => if String.eqb p (ext a) then Some (type a) else match_ext p rest
  end.

(** [IsCompressedBootableImage(path)]: the report afterwards and the return
    value, for a non-empty C string [path].  On the empty string line 236
    reads [path[-1]], which C leaves undefined: the value this definition
    takes there describes nothing, and the statements below are made for
    non-empty paths. *)
Definition IsCompressedBootableImage (path : string) (r : iso_report_t)
  : iso_report_t * bool :=
  let r := set_compression_type BLED_COMPRESSION_NONE r in
  let p := scan_back path (String.length path - 1) in
  if Nat.eqb p 0 then (r, false)
  else
    match match_ext (tail_from path p) blah with
    | Some t => (set_compression_type t r, true)
    | None => (r, false)
    end.

(* ------------------------------------------------------------------ *)
(** ** IsHDImage *)

(** [memcmp(a, b, n) == 0] on two [n]-byte arrays. *)
Fixpoint bytes_eqb (a b : list Z) : bool :=
  match a, b with
  | [], [] => true
  | x :: a', y :: b' => (x =? y) && bytes_eqb a' b'
  | _, _ => false
  end.

(** Lines 296-302: recompute the checksum with the field zeroed. *)
Definition recomputed_checksum (footer : vhd_footer) : Z :=
  not32 (byte_sum32 (footer_bytes (set_checksum 0 footer))).
Definition stored_checksum (footer : vhd_footer) : Z :=
  bswap_uint32 (checksum footer).
Definition checksum_matches (footer : vhd_footer) : bool :=
  recomputed_checksum footer =? stored_checksum footer.

(** Lines 290-291: the test that must fail for the footer to be accepted. *)
Definition unsupported_vhd (footer : vhd_footer) : bool :=
  negb (bswap_uint32 (file_format_version footer) =? VHD_FOOTER_FILE_FORMAT_V1_0)
  || negb (bswap_uint32 (disk_type footer) =? VHD_FOOTER_TYPE_FIXED_HARD_DISK).

(** What the collaborators of [IsHDImage] answer.  A handle is the content
    of the file it was opened on. *)
Record hd_env := mk_hd_env {
  CreateFileU : string -> option (list Z);   (* None: INVALID_HANDLE_VALUE *)
  AnalyzeMBR : list Z -> bool;
  GetFileSizeEx_ok : bool;
  malloc_ok : bool;
  SetFilePointerEx_ok : bool;
  ReadFile_ok : bool            (* succeeds and reads all 512 bytes *)
}.

Inductive log_line :=
| Could_not_open_image (path : string)
| Could_not_get_image_size
| Could_not_read_VHD_footer
| Unsupported_type_of_VHD_image
| VHD_footer_seems_corrupted (old_checksum checksum : Z)
| Image_is_a_Fixed_Hard_Disk_VHD_file.

(** Lines 288-307: the block that inspects the footer just read. *)
Definition inspect_footer (footer : vhd_footer) (r : iso_report_t)
  : iso_report_t * list log_line :=
  if bytes_eqb (cookie footer) conectix_str then
    let r := set_projected_size (projected_size r - sizeof_vhd_footer) r in
    if unsupported_vhd footer
    then (set_is_bootable_img false r, [Unsupported_type_of_VHD_image])
    else
      let warning :=
        if checksum_matches footer then []
        else [VHD_footer_seems_corrupted (stored_checksum footer)
                                         (recomputed_checksum footer)] in
      (set_is_vhd true r, warning ++ [Image_is_a_Fixed_Hard_Disk_VHD_file])
  else (r, []).

(** [IsHDImage(path)] run on report [r]: the report afterwards and the
    lines printed.  The C function returns [iso_report.is_bootable_img] as
    it stands at label [out].  File sizes fit a [LARGE_INTEGER]. *)
Definition IsHDImage (e : hd_env) (path : string) (r : iso_report_t)
  : iso_report_t * list log_line :=
  match CreateFileU e path with
  | None => (r, [Could_not_open_image path])
  | Some handle =>
    let '(r, b) := IsCompressedBootableImage path r in
    let r := set_is_bootable_img b r in
    let r := if is_none (compression_type r)
             then set_is_bootable_img (AnalyzeMBR e handle) r else r in
    if negb (GetFileSizeEx_ok e) then (r, [Could_not_get_image_size])
    else
      let r := set_projected_size (Z.of_nat (List.length handle)) r in
      let size := sizeof_vhd_footer in
      if is_none (compression_type r) && (projected_size r >=? 512 + size) then
        let ptr := projected_size r - size in
        if negb (malloc_ok e) || negb (SetFilePointerEx_ok e)
           || negb (ReadFile_ok e)
        then (r, [Could_not_read_VHD_footer])
        else
          inspect_footer
            (footer_of_bytes (firstn 512 (skipn (Z.to_nat ptr) handle))) r
      else (r, [])
  end.

Definition IsHDImage_result (e : hd_env) (path : string) (r : iso_report_t)
  : bool :=
  is_bootable_img (fst (IsHDImage e path r)).

(* ------------------------------------------------------------------ *)
(** ** WIM extraction: state and collaborators *)

Inductive reg_root := REGKEY_HKCU | REGKEY_HKLM.

(** Calls that leave vhd.c, in the order they are made. *)
Inductive wim_event :=
| Probe_reported (with_7z with_wimgapi : bool)  (* uprintf of WimExtractCheck *)
| Enter_7z (image : string) (index : Z)         (* WimExtractFile_7z called *)
| CreateProcess_7z (image : string) (index : Z) (src cwd : string)
| Rename_file (from to : string)
| Enter_API (image : string) (index : Z)        (* WimExtractFile_API called *)
| WIMCreateFile_called (image : string)
| WIMLoadImage_called (index : Z)               (* the (DWORD)index passed *)
| WIMExtractImagePath_called (src dst : string)
| WIMCloseHandle_called
| UpdateProgress_finalize.                      (* UpdateProgress(OP_FINALIZE, -1.0f) *)

(** The file-scope statics of vhd.c, and the calls made so far. *)
Record wim_state := mk_wim_state {
  has_wimgapi : bool;
  has_7z : bool;
  sevenzip_path : string;
  wim_trace : list wim_event
}.

(** What Windows and the rest of Rufus answer. *)
Record wim_env := mk_wim_env {
  wimgapi_entry_points : bool;  (* PF_INIT finds all five WIM entry points *)
  GetRegistryKeyStr : reg_root -> bool * string;  (* result, buffer afterwards *)
  access_ok : string -> bool;   (* _access(path, 0) != -1 while probing *)
  CreateProcessU_ok : bool;
  extracted : string -> bool;   (* _access(path, 0) != -1 once 7z.exe has exited *)
  rename_ok : bool;
  GetTempPathW_ok : bool;
  WIMCreateFile_ok : bool;
  WIMSetTemporaryPath_ok : bool;
  WIMLoadImage_ok : bool;
  WIMExtractImagePath_ok : bool
}.

(** State monad over [wim_state]. *)
Definition wim (A : Type) : Type := wim_state -> A * wim_state.
Definition ret {A} (a : A) : wim A := fun s => (a, s).
Definition bind {A B} (c : wim A) (k : A -> wim B) : wim B :=
  fun s => let '(a, s') := c s in k a s'.
Definition gets {A} (proj : wim_state -> A) : wim A := fun s => (proj s, s).
Definition emit (ev : wim_event) : wim unit :=
  fun s => (tt, mk_wim_state (has_wimgapi s) (has_7z s) (sevenzip_path s)
                             (wim_trace s ++ [ev])).
Definition set_has_wimgapi (b : bool) : wim unit :=
  fun s => (tt, mk_wim_state b (has_7z s) (sevenzip_path s) (wim_trace s)).
Definition set_has_7z (b : bool) : wim unit :=
  fun s => (tt, mk_wim_state (has_wimgapi s) b (sevenzip_path s) (wim_trace s)).
Definition set_sevenzip_path (p : string) : wim unit :=
  fun s => (tt, mk_wim_state (has_wimgapi s) (has_7z s) p (wim_trace s)).

Declare Scope wim_scope.
Delimit Scope wim_scope with wim.
Notation "x <- c ;; k" := (bind c (fun x => k))
  (at level 61, c at next level, right associativity) : wim_scope.
Notation "c ;; k" := (bind c (fun _ => k))
  (at level 61, right associativity) : wim_scope.
Local Open Scope wim_scope.
Local Open Scope string_scope.

(** The size of the [char] arrays [sevenzip_path], [cmdline] and
    [tmpdst]. *)
Definition MAX_PATH : nat := 260.

(** [safe_strcpy(dst, dst_max, src)] and [safe_strcat(dst, dst_max, src)],
    macros of rufus.h that vhd.c uses on its [MAX_PATH] arrays: the copy
    keeps the first [dst_max - 1] characters of [src], and the append adds
    as much of [src] as the room left in the array allows ([strncat] of
    at most [dst_max - strlen(dst) - 1] characters). *)
Definition safe_strcpy (dst_max : nat) (src : string) : string :=
  String.substring 0 (dst_max - 1) src.

Definition safe_strcat (dst_max : nat) (dst src : string) : string :=
  dst ++ String.substring 0 (dst_max - String.length dst - 1) src.

Arguments safe_strcpy : simpl never.
Arguments safe_strcat : simpl never.

(** [Get7ZipPath]: either registry root may fill [sevenzip_path]. *)
Definition Get7ZipPath (e : wim_env) : wim bool :=
  let '(found, buf) := GetRegistryKeyStr e REGKEY_HKCU in
  let '(found, buf) :=
    if found then (true, buf) else GetRegistryKeyStr e REGKEY_HKLM in
  if found then
    set_sevenzip_path (safe_strcat MAX_PATH buf "\7z.exe") ;;
    p <- gets sevenzip_path ;;
    ret (access_ok e p)
  else
    set_sevenzip_path buf ;;
    ret false.

(** [WimExtractCheck]. *)
Definition WimExtractCheck (e : wim_env) : wim bool :=
  set_has_wimgapi (wimgapi_entry_points e) ;;
  found <- Get7ZipPath e ;;
  set_has_7z found ;;
  h7 <- gets has_7z ;;
  hw <- gets has_wimgapi ;;
  emit (Probe_reported h7 hw) ;;
  ret (hw || h7).

(** [WimExtractFile_API]; [closing] is the code at label [out], given which
    of [hImage], [hWim] are open. *)
Definition close_handles (hImage hWim : bool) : wim unit :=
  (if hImage then emit WIMCloseHandle_called else ret tt) ;;
  (if hWim then emit WIMCloseHandle_called else ret tt).

Definition WimExtractFile_API (e : wim_env) (image : string) (index : Z)
  (src dst : string) : wim bool :=
  emit (Enter_API image index) ;;
  if negb (wimgapi_entry_points e) then close_handles false false ;; ret false
  else if negb (GetTempPathW_ok e) then close_handles false false ;; ret false
  else
    emit (WIMCreateFile_called image) ;;
    if negb (WIMCreateFile_ok e) then close_handles false false ;; ret false
    else if negb (WIMSetTemporaryPath_ok e) then
      close_handles false true ;; ret false
    else
      emit (WIMLoadImage_called (to_uint 32 index)) ;;
      if negb (WIMLoadImage_ok e) then close_handles false true ;; ret false
      else
        emit (WIMExtractImagePath_called src dst) ;;
        if negb (WIMExtractImagePath_ok e) then
          close_handles true true ;; ret false
        else
          emit UpdateProgress_finalize ;;
          close_handles true true ;;
          ret true.

(** [for (i=safe_strlen(tmpdst); i>0; i--) if (tmpdst[i] == '\\') break;] *)
Fixpoint scan_backslash (s : string) (i : nat) : nat :=
  match i with
  | O => O
  | S i' =>
    match String.get i s with
    | Some c => if Ascii.eqb c "\" then i else scan_backslash s i'
    | None => scan_backslash s i'
    end
  end.

(** The working directory handed to 7z.exe: [dst] copied into
    [tmpdst[MAX_PATH]] and cut at its last backslash (lines 407-412). *)
Definition extraction_dir (dst : string) : string :=
  let tmpdst := safe_strcpy MAX_PATH dst in
  String.substring 0 (scan_backslash tmpdst (String.length tmpdst)) tmpdst.

(** The file whose presence tells that 7z.exe extracted something: the
    same array after line 426. *)
Definition artifact_path (dst : string) : string :=
  safe_strcat MAX_PATH (extraction_dir dst) "\bootmgfw.efi".

(** [WimExtractFile_7z].  The command line of line 415 is kept as its
    parts. *)
Definition WimExtractFile_7z (e : wim_env) (image : string) (index : Z)
  (src dst : string) : wim bool :=
  emit (Enter_7z image index) ;;
  let tmpdst := extraction_dir dst in
  emit (CreateProcess_7z image index src tmpdst) ;;
  if negb (CreateProcessU_ok e) then ret false
  else
    emit UpdateProgress_finalize ;;
    let tmpdst := artifact_path dst in
    if negb (extracted e tmpdst) then ret false
    else
      emit (Rename_file tmpdst dst) ;;
      if negb (rename_ok e) then ret false
      else ret true.

(** [WimExtractFile]; a [NULL] pointer argument is [None]. *)
Definition WimExtractFile (e : wim_env) (image : option string) (index : Z)
  (src dst : option string) : wim bool :=
  hw <- gets has_wimgapi ;;
  h7 <- gets has_7z ;;
  nothing <- (if negb hw && negb h7
              then found <- WimExtractCheck e ;; ret (negb found)
              else ret false) ;;
  if nothing then ret false
  else
    match image, src, dst with
    | Some image, Some src, Some dst =>
      h7 <- gets has_7z ;;
      by_7z <- (if h7 then WimExtractFile_7z e image index src dst
                else ret false) ;;
      if by_7z then ret true
      else
        hw <- gets has_wimgapi ;;
        if hw then WimExtractFile_API e image index src dst else ret false
    | _, _, _ => ret false
    end.

(** Events that show a backend at work or progress being reported. *)
Definition is_backend_event (ev : wim_event) : bool :=
  match ev with
  | Probe_reported _ _ => false
  | _ => true
  end.

(* ------------------------------------------------------------------ *)
(** ** Vocabulary of the statements *)

Definition is_byte (b : Z) : Prop := 0 <= b < 256.

(** A struct value whose fields fit their C types. *)
Record footer_wf (f : vhd_footer) : Prop := mk_footer_wf {
  wf_cookie : List.length (cookie f) = 8%nat;
  wf_features : 0 <= features f < 2 ^ 32;
  wf_file_format_version : 0 <= file_format_version f < 2 ^ 32;
  wf_data_offset : 0 <= data_offset f < 2 ^ 64;
  wf_timestamp : 0 <= timestamp f < 2 ^ 32;
  wf_creator_app : List.length (creator_app f) = 4%nat;
  wf_creator_version : 0 <= creator_version f < 2 ^ 32;
  wf_creator_host_os : List.length (creator_host_os f) = 4%nat;
  wf_original_size : 0 <= original_size f < 2 ^ 64;
  wf_current_size : 0 <= current_size f < 2 ^ 64;
  wf_chs_cylinders : 0 <= chs_cylinders f < 2 ^ 16;
  wf_chs_heads : 0 <= chs_heads f < 2 ^ 8;
  wf_chs_sectors : 0 <= chs_sectors f < 2 ^ 8;
  wf_disk_type : 0 <= disk_type f < 2 ^ 32;
  wf_checksum : 0 <= checksum f < 2 ^ 32;
  wf_unique_id : 0 <= unique_id f < 2 ^ 128;
  wf_saved_state : 0 <= saved_state f < 2 ^ 8;
  wf_reserved : List.length (reserved f) = 427%nat
}.

(** The footer with its checksum field rewritten to the value [IsHDImage]
    recomputes. *)
Definition repair_checksum (f : vhd_footer) : vhd_footer :=
  set_checksum (bswap_uint32 (recomputed_checksum f)) f.

(** The footer with byte [k] of [reserved] replaced by [v]. *)
Definition poke_reserved (k : nat) (v : Z) (f : vhd_footer) : vhd_footer :=
  mk_vhd_footer (cookie f) (features f) (file_format_version f) (data_offset f)
    (timestamp f) (creator_app f) (creator_version f) (creator_host_os f)
    (original_size f) (current_size f) (chs_cylinders f) (chs_heads f)
    (chs_sectors f) (disk_type f) (checksum f) (unique_id f) (saved_state f)
    (firstn k (reserved f) ++ v :: skipn (S k) (reserved f)).

(** The footer with another [data_offset]. *)
Definition poke_data_offset (v : Z) (f : vhd_footer) : vhd_footer :=
  mk_vhd_footer (cookie f) (features f) (file_format_version f) v
    (timestamp f) (creator_app f) (creator_version f) (creator_host_os f)
    (original_size f) (current_size f) (chs_cylinders f) (chs_heads f)
    (chs_sectors f) (disk_type f) (checksum f) (unique_id f) (saved_state f)
    (reserved f).

(** The footer with another [disk_type]. *)
Definition poke_disk_type (v : Z) (f : vhd_footer) : vhd_footer :=
  mk_vhd_footer (cookie f) (features f) (file_format_version f) (data_offset f)
    (timestamp f) (creator_app f) (creator_version f) (creator_host_os f)
    (original_size f) (current_size f) (chs_cylinders f) (chs_heads f)
    (chs_sectors f) v (checksum f) (unique_id f) (saved_state f)
    (reserved f).

(** The same machine with [image] stored at [path]. *)
Definition with_file (e : hd_env) (path : string) (image : list Z) : hd_env :=
  mk_hd_env (fun p => if String.eqb p path then Some image else CreateFileU e p)
    (AnalyzeMBR e) (GetFileSizeEx_ok e) (malloc_ok e) (SetFilePointerEx_ok e)
    (ReadFile_ok e).

(** Every system call of [IsHDImage] after the open succeeds. *)
Definition io_ok (e : hd_env) : bool :=
  GetFileSizeEx_ok e && malloc_ok e && SetFilePointerEx_ok e && ReadFile_ok e.

(** [path] is not one of the compressed kinds. *)
Definition uncompressed (path : string) : bool :=
  is_none (compression_type
    (fst (IsCompressedBootableImage path
            (mk_iso_report BLED_COMPRESSION_NONE false 0 false)))).

(** The report [IsHDImage] holds when it reaches the footer block. *)
Definition report_before_footer (e : hd_env) (image : list Z)
  (r : iso_report_t) : iso_report_t :=
  mk_iso_report BLED_COMPRESSION_NONE (AnalyzeMBR e image)
    (Z.of_nat (List.length image)) (is_vhd r).

Fixpoint no_dot (s : string) : bool :=
  match s with
  | EmptyString => true
  | String c s' => negb (Ascii.eqb c ".") && no_dot s'
  end.

(** The entry of [blah] for an extension, [BLED_COMPRESSION_NONE] without
    one. *)
Definition table_type (extension : string) : bled_compression_type :=
  match match_ext extension blah with
  | Some t => t
  | None => BLED_COMPRESSION_NONE
  end.

(** Sample machines. *)
Definition sample_footer_env : footer_env :=
  mk_footer_env 1400000000 (1, 4) (Some 0x0123456789ABCDEF0123456789ABCDEF).

Definition sample_append_env : append_env :=
  mk_append_env true true (true, 512%nat) sample_footer_env.

(** An MBR check that looks for the 0x55 0xAA signature of sector 0. *)
Definition sample_AnalyzeMBR (image : list Z) : bool :=
  ((nth 510 image 0 =? 0x55) && (nth 511 image 0 =? 0xAA))%Z.

Definition sample_payload : list Z := (repeat 0 510 ++ [0x55; 0xAA])%list.

Definition sample_hd_env : hd_env :=
  mk_hd_env (fun _ => None) sample_AnalyzeMBR true true true true.

Definition fresh_report : iso_report_t :=
  mk_iso_report BLED_COMPRESSION_NONE false 0 false.

Definition stale_report : iso_report_t :=
  mk_iso_report BLED_COMPRESSION_NONE true 4096 true.

(** A footer as Rufus writes it for the sample payload. *)
Definition sample_footer : vhd_footer :=
  make_footer sample_footer_env (Z.of_nat (List.length sample_payload)).

(** The sample footer after one byte of [reserved] was changed. *)
Definition corrupted_footer : vhd_footer := poke_reserved 10 1 sample_footer.

(** A footer with a valid checksum whose [data_offset] is 0. *)
Definition zero_offset_footer : vhd_footer :=
  repair_checksum (poke_data_offset 0 sample_footer).

(** A footer with a valid checksum that announces a dynamic disk. *)
Definition dynamic_footer : vhd_footer :=
  repair_checksum
    (poke_disk_type (bswap_uint32 VHD_FOOTER_TYPE_DYNAMIC_HARD_DISK)
                    sample_footer).

Definition sample_wim_env : wim_env :=
  mk_wim_env true (fun _ => (true, "C:\Program Files\7-Zip")) (fun _ => true)
    true (fun _ => false) true true true true true true.

Definition unprobed : wim_state := mk_wim_state false false "" [].
Definition probed : wim_state :=
  mk_wim_state true true "C:\Program Files\7-Zip\7z.exe" [].

(* ------------------------------------------------------------------ *)
(** ** Further vocabulary *)

(** The sum of a buffer's bytes, without wrap-around. *)
Definition sum_bytes (l : list Z) : Z := fold_right Z.add 0%Z l.

(** Every element of a buffer is a byte. *)
Definition all_bytes (l : list Z) : bool :=
  forallb (fun b => ((0 <=? b) && (b <? 256))%Z) l.

(** Lines 169-192 as they would run with [heads] held in an [int]: the
    bindings of [chs_select] without the conversion to [uint8_t]. *)
Definition chs_select_int_heads (totalSectors : Z) : chs_vars :=
  (if totalSectors >=? 65535 * 16 * 63 then
     mk_chs 255 16 (to_uint 32 (totalSectors / 255))
   else
     let sectorsPerTrack := 17 in
     let cylinderTimesHeads := to_uint 32 (totalSectors / sectorsPerTrack) in
     let heads := to_uint 32 (cylinderTimesHeads + 1023) / 1024 in
     let heads := if heads <? 4 then 4 else heads in
     let s1 :=
       if (cylinderTimesHeads >=? to_uint 32 (heads * 1024)) || (heads >? 16)
       then mk_chs 31 16 (to_uint 32 (totalSectors / 31))
       else mk_chs sectorsPerTrack heads cylinderTimesHeads in
     if v_cylinderTimesHeads s1 >=? to_uint 32 (v_heads s1 * 1024)
     then mk_chs 63 16 (to_uint 32 (totalSectors / 63))
     else s1)%Z.

(** The value of the right-hand side of line 177, before it is stored in
    the [uint8_t] variable [heads]. *)
Definition heads_at_line_177 (totalSectors : Z) : Z :=
  (to_uint 32 (to_uint 32 (totalSectors / 17) + 1023) / 1024)%Z.

(** The 512 bytes [IsHDImage] reads from the end of a file, and the struct
    it sees through them. *)
Definition last_sector (image : list Z) : list Z :=
  firstn 512
    (skipn (Z.to_nat (Z.of_nat (List.length image) - sizeof_vhd_footer)) image).

Definition trailing_footer (image : list Z) : vhd_footer :=
  footer_of_bytes (last_sector image).

(** The conditions under which [IsHDImage] reaches the footer block of an
    open file. *)
Definition reads_footer (e : hd_env) (path : string) (image : list Z) : bool :=
  uncompressed path && (Z.of_nat (List.length image) >=? 1024)%Z && io_ok e.


Definition is_close (ev : wim_event) : bool :=
  match ev with WIMCloseHandle_called => true | _ => false end.

Definition is_progress (ev : wim_event) : bool :=
  match ev with UpdateProgress_finalize => true | _ => false end.

Definition is_enter_API (ev : wim_event) : bool :=
  match ev with Enter_API _ _ => true | _ => false end.

Definition is_enter_7z (ev : wim_event) : bool :=
  match ev with Enter_7z _ _ => true | _ => false end.

Definition is_probe (ev : wim_event) : bool :=
  match ev with Probe_reported _ _ => true | _ => false end.

Definition count_events (p : wim_event -> bool) (t : list wim_event) : nat :=
  List.length (filter p t).

(** [WIMCreateFile] is reached and returns a handle; [WIMLoadImage] is
    reached and returns a handle. *)
Definition api_opens_wim (e : wim_env) : bool :=
  wimgapi_entry_points e && GetTempPathW_ok e && WIMCreateFile_ok e.

Definition api_opens_image (e : wim_env) : bool :=
  api_opens_wim e && WIMSetTemporaryPath_ok e && WIMLoadImage_ok e.

(** More sample machines. *)
Definition plain_image : list Z := (sample_payload ++ repeat 0 1024)%list.

Definition tiny_image : list Z := footer_bytes sample_footer.

(** A machine on which 7z.exe extracts the file. *)
Definition sample_wim_env_7z : wim_env :=
  mk_wim_env true (fun _ => (true, "C:\Program Files\7-Zip")) (fun _ => true)
    true (fun _ => true) true true true true true true.

(** A machine with neither wimgapi.dll nor 7-Zip. *)
Definition bare_wim_env : wim_env :=
  mk_wim_env false (fun _ => (false, "")) (fun _ => false)
    false (fun _ => false) false false false false false false.

Definition api_only : wim_state := mk_wim_state true false "" [].
Definition tool_only : wim_state :=
  mk_wim_state false true "C:\Program Files\7-Zip\7z.exe" [].

(** The compression type the extension of [path] stands for. *)
Definition path_type (path : string) : bled_compression_type :=
  compression_type (fst (IsCompressedBootableImage path fresh_report)).

(** [IsHDImage] reaches the footer block of the open file, finds the magic
    and passes the version and disk type test. *)
Definition accepts_vhd (e : hd_env) (path : string) (image : list Z) : bool :=
  reads_footer e path image
  && bytes_eqb (cookie (trailing_footer image)) conectix_str
  && negb (unsupported_vhd (trailing_footer image)).

(** The report of [IsHDImage] once the file size is known. *)
Definition report_with_size (e : hd_env) (path : string) (image : list Z)
  (r : iso_report_t) : iso_report_t :=
  mk_iso_report (path_type path)
    (if uncompressed path then AnalyzeMBR e image else true)
    (Z.of_nat (List.length image)) (is_vhd r).

(** A file with a compressed name that holds a VHD. *)
Definition sample_vhd_image : list Z :=
  (sample_payload ++ footer_bytes sample_footer)%list.

Definition failing_size_env : hd_env :=
  mk_hd_env (fun _ => Some sample_vhd_image) sample_AnalyzeMBR
    false true true true.

Definition failing_read_env : hd_env :=
  mk_hd_env (fun _ => Some sample_vhd_image) sample_AnalyzeMBR
    true true true false.

(** The statics of vhd.c hold the same values in both states and no probe
    was reported in between. *)
Definition same_registry (s s' : wim_state) : Prop :=
  has_wimgapi s' = has_wimgapi s
  /\ has_7z s' = has_7z s
  /\ sevenzip_path s' = sevenzip_path s
  /\ count_events is_probe (wim_trace s')
     = count_events is_probe (wim_trace s).

(* ------------------------------------------------------------------ *)
(** * Properties *)

Local Open Scope Z_scope.
Local Open Scope list_scope.

(** ** Little-endian bytes *)

Lemma length_le_bytes (w : nat) (v : Z) : List.length (le_bytes w v) = w.
Proof.
  revert v; induction w as [|w IH]; intros v; simpl; [reflexivity|].
  now rewrite IH.
Qed.

Lemma le_bytes_is_byte (w : nat) (v : Z) : Forall is_byte (le_bytes w v).
Proof.
  revert v; induction w as [|w IH]; intros v; simpl; constructor.
  - unfold is_byte. apply Z.mod_pos_bound. lia.
  - apply IH.
Qed.

Lemma le_value_le_bytes (w : nat) (v : Z) :
  le_value (le_bytes w v) = v mod 256 ^ Z.of_nat w.
Proof.
  revert v; induction w as [|w IH]; intros v.
  - simpl. now rewrite Z.mod_1_r.
  - cbn [le_bytes le_value]. rewrite IH.
    rewrite Nat2Z.inj_succ, Z.pow_succ_r by lia.
    rewrite Z.rem_mul_r by (try apply Z.pow_pos_nonneg; lia).
    reflexivity.
Qed.

Lemma le_bytes_le_value (l : list Z) :
  Forall is_byte l -> le_bytes (List.length l) (le_value l) = l.
Proof.
  induction 1 as [|b l Hb Hl IH]; [reflexivity|].
  cbn [List.length le_bytes le_value]. unfold is_byte in Hb.
  replace ((b + 256 * le_value l) mod 256) with b.
  - replace ((b + 256 * le_value l) / 256) with (le_value l).
    + now rewrite IH.
    + symmetry. rewrite Z.mul_comm, Z.div_add by lia.
      rewrite Z.div_small by lia. lia.
  - symmetry. rewrite Z.mul_comm, Z.mod_add by lia. apply Z.mod_small; lia.
Qed.

Lemma le_value_range (l : list Z) :
  Forall is_byte l -> 0 <= le_value l < 256 ^ Z.of_nat (List.length l).
Proof.
  induction 1 as [|b l Hb Hl IH].
  - simpl. lia.
  - cbn [List.length le_value]. unfold is_byte in Hb.
    rewrite Nat2Z.inj_succ, Z.pow_succ_r by lia. lia.
Qed.

Lemma le_value_le_bytes_small (w : nat) (v : Z) :
  0 <= v < 256 ^ Z.of_nat w -> le_value (le_bytes w v) = v.
Proof.
  intros Hv. rewrite le_value_le_bytes. now apply Z.mod_small.
Qed.

(** ** Byte swapping *)

Lemma rev_le_bytes_is_byte (w : nat) (v : Z) : Forall is_byte (rev (le_bytes w v)).
Proof.
  apply Forall_rev, le_bytes_is_byte.
Qed.

Lemma bswap_range (w : nat) (v : Z) : 0 <= bswap w v < 256 ^ Z.of_nat w.
Proof.
  unfold bswap.
  pose proof (le_value_range _ (rev_le_bytes_is_byte w v)) as H.
  now rewrite length_rev, length_le_bytes in H.
Qed.

Lemma bswap_bswap (w : nat) (v : Z) : bswap w (bswap w v) = v mod 256 ^ Z.of_nat w.
Proof.
  unfold bswap at 1. unfold bswap.
  pose proof (le_bytes_le_value _ (rev_le_bytes_is_byte w v)) as H.
  rewrite length_rev, length_le_bytes in H.
  rewrite H, rev_involutive. apply le_value_le_bytes.
Qed.

Lemma bswap_uint32_range (v : Z) : 0 <= bswap_uint32 v < 2 ^ 32.
Proof. exact (bswap_range 4 v). Qed.

Lemma bswap_uint64_range (v : Z) : 0 <= bswap_uint64 v < 2 ^ 64.
Proof. exact (bswap_range 8 v). Qed.

Lemma bswap_uint16_range (v : Z) : 0 <= bswap_uint16 v < 2 ^ 16.
Proof. exact (bswap_range 2 v). Qed.

Lemma bswap_uint32_involutive (v : Z) :
  0 <= v < 2 ^ 32 -> bswap_uint32 (bswap_uint32 v) = v.
Proof.
  intros Hv. unfold bswap_uint32. rewrite bswap_bswap.
  apply Z.mod_small. exact Hv.
Qed.

Example bswap_uint32_bytes : bswap_uint32 0x11223344 = 0x44332211.
Proof. reflexivity. Qed.

Example bswap_uint16_bytes : bswap_uint16 0x1234 = 0x3412.
Proof. reflexivity. Qed.

Lemma not32_range (x : Z) : 0 <= not32 x < 2 ^ 32.
Proof.
  unfold not32, to_uint. apply Z.mod_pos_bound. lia.
Qed.

(** ** The struct and its memory image *)

(** Reduce the projections of a footer that is given by its constructor. *)
Ltac footer_proj :=
  cbn [cookie features file_format_version data_offset timestamp creator_app
       creator_version creator_host_os original_size current_size
       chs_cylinders chs_heads chs_sectors disk_type checksum unique_id
       saved_state reserved] in *.

Lemma split_at_app (n : nat) (a b : list Z) :
  List.length a = n -> split_at n (a ++ b) = (a, b).
Proof.
  intros <-. unfold split_at.
  rewrite firstn_app, skipn_app, Nat.sub_diag, firstn_all, skipn_all.
  simpl. now rewrite app_nil_r.
Qed.

Lemma split_at_le_bytes (w : nat) (v : Z) (b : list Z) :
  split_at w (le_bytes w v ++ b) = (le_bytes w v, b).
Proof. apply split_at_app, length_le_bytes. Qed.

Lemma length_footer_bytes (f : vhd_footer) :
  footer_wf f -> List.length (footer_bytes f) = 512%nat.
Proof.
  intros [Hc _ _ _ _ Ha _ Hh _ _ _ _ _ _ _ _ _ Hr].
  unfold footer_bytes.
  repeat rewrite length_app. repeat rewrite length_le_bytes.
  rewrite Hc, Ha, Hh, Hr. reflexivity.
Qed.

Lemma footer_of_bytes_footer_bytes (f : vhd_footer) :
  footer_wf f -> footer_of_bytes (footer_bytes f) = f.
Proof.
  intros H. destruct H; destruct f; footer_proj.
  unfold footer_of_bytes, footer_bytes; footer_proj.
  repeat (first [ rewrite split_at_le_bytes
                | rewrite split_at_app by assumption ]).
  rewrite firstn_all2 by lia.
  rewrite !le_value_le_bytes_small by assumption.
  reflexivity.
Qed.

Lemma is_byte_skipn (n : nat) (l : list Z) :
  Forall is_byte l -> Forall is_byte (skipn n l).
Proof.
  intros H. rewrite <- (firstn_skipn n l) in H.
  apply Forall_app in H. apply H.
Qed.

Lemma is_byte_firstn (n : nat) (l : list Z) :
  Forall is_byte l -> Forall is_byte (firstn n l).
Proof.
  intros H. rewrite <- (firstn_skipn n l) in H.
  apply Forall_app in H. apply H.
Qed.

Lemma le_bytes_firstn (w : nat) (l : list Z) :
  (w <= List.length l)%nat -> Forall is_byte l ->
  le_bytes w (le_value (firstn w l)) = firstn w l.
Proof.
  intros Hw Hl.
  pose proof (le_bytes_le_value _ (is_byte_firstn w l Hl)) as H.
  rewrite length_firstn, Nat.min_l in H by exact Hw. exact H.
Qed.

(** Conversely every 512-byte buffer is the memory image of the struct read
    from it, so nothing is lost by going through [vhd_footer]. *)
Lemma footer_bytes_footer_of_bytes (l : list Z) :
  List.length l = 512%nat -> Forall is_byte l ->
  footer_bytes (footer_of_bytes l) = l.
Proof.
  intros Hlen Hl. unfold footer_of_bytes, split_at, footer_bytes. footer_proj.
  rewrite !le_bytes_firstn
    by (first [ repeat apply is_byte_skipn; exact Hl
              | rewrite !length_skipn, Hlen; repeat constructor ]).
  rewrite (firstn_all2 (n := 427)) by (rewrite !length_skipn, Hlen; apply Nat.le_refl).
  rewrite !firstn_skipn. reflexivity.
Qed.

Lemma le_value_firstn_range (w : nat) (l : list Z) :
  (w <= List.length l)%nat -> Forall is_byte l ->
  0 <= le_value (firstn w l) < 256 ^ Z.of_nat w.
Proof.
  intros Hw Hl.
  pose proof (le_value_range _ (is_byte_firstn w l Hl)) as H.
  rewrite length_firstn, Nat.min_l in H by exact Hw. exact H.
Qed.

Lemma footer_of_bytes_wf (l : list Z) :
  List.length l = 512%nat -> Forall is_byte l -> footer_wf (footer_of_bytes l).
Proof.
  intros Hlen Hl.
  constructor; unfold footer_of_bytes, split_at; footer_proj;
    first [ rewrite length_firstn, ?length_skipn, Hlen; reflexivity
          | apply (le_value_firstn_range 1)
          | apply (le_value_firstn_range 2)
          | apply (le_value_firstn_range 4)
          | apply (le_value_firstn_range 8)
          | apply (le_value_firstn_range 16) ];
    first [ repeat apply is_byte_skipn; exact Hl
          | rewrite ?length_skipn, Hlen; repeat constructor ].
Qed.

(** Every image of at least 1024 bytes is a payload of at least 512 bytes
    followed by the memory image of a footer struct, so the statements
    below, made for [payload ++ footer_bytes f], cover every file that
    [IsHDImage] reads a footer from. *)
Lemma image_ends_in_footer (image : list Z) :
  (1024 <= List.length image)%nat ->
  Forall is_byte image ->
  exists payload f,
    image = payload ++ footer_bytes f
    /\ footer_wf f
    /\ 512 <= Z.of_nat (List.length payload).
Proof.
  intros Hlen Hbytes.
  set (n := (List.length image - 512)%nat).
  assert (Htail : List.length (skipn n image) = 512%nat)
    by (rewrite length_skipn; subst n; lia).
  exists (firstn n image), (footer_of_bytes (skipn n image)).
  split; [|split].
  - rewrite footer_bytes_footer_of_bytes
      by (try apply is_byte_skipn; assumption).
    symmetry. apply firstn_skipn.
  - apply footer_of_bytes_wf; [exact Htail | now apply is_byte_skipn].
  - rewrite length_firstn. subst n. lia.
Qed.

Lemma set_checksum_wf (v : Z) (f : vhd_footer) :
  footer_wf f -> 0 <= v < 2 ^ 32 -> footer_wf (set_checksum v f).
Proof.
  intros H Hv. destruct H; constructor; simpl; assumption.
Qed.

(** ** AppendVHDFooter *)

Lemma chs_select_fits (ts : Z) :
  0 <= v_heads (chs_select ts) < 2 ^ 8
  /\ 0 <= v_sectorsPerTrack (chs_select ts) < 2 ^ 8.
Proof.
  unfold chs_select.
  destruct (ts >=? 65535 * 16 * 63); [simpl; lia|].
  set (h0 := to_uint 8 (to_uint 32 (to_uint 32 (ts / 17) + 1023) / 1024)).
  assert (Hh0 : 0 <= h0 < 2 ^ 8) by (apply Z.mod_pos_bound; lia).
  set (h := if h0 <? 4 then 4 else h0).
  assert (Hh : 0 <= h < 2 ^ 8) by (subst h; destruct (h0 <? 4); lia).
  cbv zeta.
  destruct ((to_uint 32 (ts / 17) >=? to_uint 32 (h * 1024)) || (h >? 16));
    cbn [v_heads v_sectorsPerTrack v_cylinderTimesHeads];
    match goal with |- context [if ?c then _ else _] => destruct c end;
    cbn [v_heads v_sectorsPerTrack]; lia.
Qed.

Lemma footer_fields_wf (e : footer_env) (li : Z) : footer_wf (footer_fields e li).
Proof.
  destruct (chs_select_fits (total_sectors li)) as [Hh Hs].
  constructor; unfold footer_fields; footer_proj;
    try reflexivity;
    try apply bswap_uint32_range; try apply bswap_uint64_range;
    try apply bswap_uint16_range; try assumption;
    try (destruct (uuid_create e); [apply Z.mod_pos_bound|]); lia.
Qed.

Lemma make_footer_wf (e : footer_env) (li : Z) : footer_wf (make_footer e li).
Proof.
  apply set_checksum_wf; [apply footer_fields_wf | apply bswap_uint32_range].
Qed.

Lemma checksum_matches_spec (f : vhd_footer) :
  checksum_matches f = true <-> recomputed_checksum f = stored_checksum f.
Proof. unfold checksum_matches. apply Z.eqb_eq. Qed.

Lemma stored_checksum_set (v : Z) (f : vhd_footer) :
  0 <= v < 2 ^ 32 -> stored_checksum (set_checksum (bswap_uint32 v) f) = v.
Proof.
  intros Hv. unfold stored_checksum. cbn [checksum set_checksum].
  now apply bswap_uint32_involutive.
Qed.

Lemma recomputed_checksum_set (v : Z) (f : vhd_footer) :
  recomputed_checksum (set_checksum v f) = recomputed_checksum f.
Proof. destruct f; reflexivity. Qed.

Lemma recomputed_checksum_zeroed (f : vhd_footer) :
  checksum f = 0 ->
  recomputed_checksum f = not32 (byte_sum32 (footer_bytes f)).
Proof.
  intros H. unfold recomputed_checksum.
  replace (set_checksum 0 f) with f; [reflexivity|].
  destruct f; simpl in H; subst; reflexivity.
Qed.

Lemma make_footer_checksum_matches (e : footer_env) (li : Z) :
  checksum_matches (make_footer e li) = true.
Proof.
  apply checksum_matches_spec. unfold make_footer.
  rewrite recomputed_checksum_set, stored_checksum_set by apply not32_range.
  apply recomputed_checksum_zeroed. reflexivity.
Qed.

Lemma repair_checksum_matches (f : vhd_footer) :
  checksum_matches (repair_checksum f) = true.
Proof.
  apply checksum_matches_spec. unfold repair_checksum.
  rewrite recomputed_checksum_set, stored_checksum_set; [reflexivity|].
  apply not32_range.
Qed.

(** ** IsCompressedBootableImage *)

Lemma match_ext_blah_not_none (p : string) (t : bled_compression_type) :
  match_ext p blah = Some t -> is_none t = false.
Proof.
  unfold blah; cbn [match_ext ext type].
  repeat match goal with
         | |- context [String.eqb ?a ?b] => destruct (String.eqb a b)
         end; intros H; inversion H; reflexivity.
Qed.

Lemma IsCompressedBootableImage_uncompressed (path : string) (r : iso_report_t) :
  uncompressed path = true ->
  IsCompressedBootableImage path r
  = (set_compression_type BLED_COMPRESSION_NONE r, false).
Proof.
  unfold uncompressed, IsCompressedBootableImage.
  destruct (Nat.eqb (scan_back path (String.length path - 1)) 0);
    [reflexivity|].
  destruct (match_ext _ blah) as [t|] eqn:Ht; [|reflexivity].
  cbn. intros Hnone. apply match_ext_blah_not_none in Ht. congruence.
Qed.

(** ** IsHDImage on a file that ends in a footer *)

Lemma io_ok_inv (e : hd_env) :
  io_ok e = true ->
  GetFileSizeEx_ok e = true /\ malloc_ok e = true
  /\ SetFilePointerEx_ok e = true /\ ReadFile_ok e = true.
Proof.
  unfold io_ok. intros H.
  apply andb_prop in H as [H H4]. apply andb_prop in H as [H H3].
  apply andb_prop in H as [H1 H2]. auto.
Qed.

Lemma read_last_sector (payload fb : list Z) :
  List.length fb = 512%nat ->
  firstn 512
    (skipn (Z.to_nat (Z.of_nat (List.length (payload ++ fb)) - sizeof_vhd_footer))
           (payload ++ fb)) = fb.
Proof.
  intros Hfb. rewrite length_app, Hfb. unfold sizeof_vhd_footer.
  replace (Z.to_nat (Z.of_nat (List.length payload + 512) - 512))
    with (List.length payload) by lia.
  rewrite skipn_app, Nat.sub_diag, skipn_all. cbn [skipn app].
  apply firstn_all2. lia.
Qed.

Lemma IsHDImage_inspects_footer (e : hd_env) (path : string) (r : iso_report_t)
  (payload : list Z) (f : vhd_footer) :
  CreateFileU e path = Some (payload ++ footer_bytes f) ->
  footer_wf f ->
  512 <= Z.of_nat (List.length payload) ->
  uncompressed path = true ->
  io_ok e = true ->
  IsHDImage e path r
  = inspect_footer f (report_before_footer e (payload ++ footer_bytes f) r).
Proof.
  intros Hopen Hwf Hlen Hunc Hio.
  apply io_ok_inv in Hio as (Hsize & Hmalloc & Hseek & Hread).
  unfold IsHDImage.
  rewrite Hopen, (IsCompressedBootableImage_uncompressed path r Hunc).
  rewrite Hsize, Hmalloc, Hseek, Hread.
  cbn [set_is_bootable_img set_compression_type set_projected_size
       compression_type is_bootable_img projected_size is_vhd is_none
       negb orb andb].
  pose proof (length_footer_bytes f Hwf) as Hfb.
  assert (Hbig : (Z.of_nat (List.length (payload ++ footer_bytes f))
                  >=? 512 + sizeof_vhd_footer) = true).
  { rewrite length_app, Hfb. unfold sizeof_vhd_footer.
    apply Z.geb_le. lia. }
  rewrite Hbig.
  rewrite (read_last_sector payload (footer_bytes f) Hfb).
  rewrite (footer_of_bytes_footer_bytes f Hwf).
  reflexivity.
Qed.

Lemma make_footer_cookie (e : footer_env) (li : Z) :
  bytes_eqb (cookie (make_footer e li)) conectix_str = true.
Proof. reflexivity. Qed.

Lemma make_footer_supported (e : footer_env) (li : Z) :
  unsupported_vhd (make_footer e li) = false.
Proof. reflexivity. Qed.

Lemma unsupported_vhd_spec (f : vhd_footer) :
  unsupported_vhd f = true <->
  bswap_uint32 (file_format_version f) <> VHD_FOOTER_FILE_FORMAT_V1_0
  \/ bswap_uint32 (disk_type f) <> VHD_FOOTER_TYPE_FIXED_HARD_DISK.
Proof.
  unfold unsupported_vhd. rewrite orb_true_iff, !negb_true_iff, !Z.eqb_neq.
  reflexivity.
Qed.

Lemma unsupported_vhd_test (f : vhd_footer) :
  unsupported_vhd f
  = negb ((bswap_uint32 (file_format_version f) =? VHD_FOOTER_FILE_FORMAT_V1_0)
          && (bswap_uint32 (disk_type f) =? VHD_FOOTER_TYPE_FIXED_HARD_DISK)).
Proof.
  unfold unsupported_vhd. now rewrite negb_andb.
Qed.

Lemma AppendVHDFooter_success (ae : append_env) (payload image : list Z) :
  AppendVHDFooter ae payload = (true, image) ->
  image = payload
          ++ footer_bytes (make_footer (append_footer_env ae)
                                       (Z.of_nat (List.length payload))).
Proof.
  unfold AppendVHDFooter.
  destruct (append_open_ok ae); [|discriminate].
  destruct (calloc_ok ae); [|discriminate].
  destruct (WriteFile ae) as [ok size].
  destruct ok; [|discriminate].
  destruct (Nat.eqb size 512) eqn:Hsize; [|discriminate].
  apply Nat.eqb_eq in Hsize. subst size. cbn [negb orb].
  intros H. apply (f_equal snd) in H. cbn [snd] in H. subst image.
  rewrite firstn_all2; [reflexivity|].
  rewrite length_footer_bytes by apply make_footer_wf. apply Nat.le_refl.
Qed.

(** ** The footer checksum *)

(** C1.  Round trip: for every original size [n > 0], the footer that
    [AppendVHDFooter] builds for [n], written out as its 512 bytes and read
    back as [IsHDImage] reads it, passes the checksum validation: the
    one's-complement byte sum recomputed with the checksum field zeroed
    equals the stored checksum field. *)
Theorem footer_checksum_round_trip (e : footer_env) (n : Z) :
  0 < n ->
  recomputed_checksum (footer_of_bytes (footer_bytes (make_footer e n)))
  = stored_checksum (footer_of_bytes (footer_bytes (make_footer e n)))
  /\ checksum_matches (footer_of_bytes (footer_bytes (make_footer e n))) = true.
Proof.
  intros _.
  rewrite footer_of_bytes_footer_bytes by apply make_footer_wf.
  pose proof (make_footer_checksum_matches e n) as H.
  split; [|exact H].
  apply checksum_matches_spec. exact H.
Qed.

Lemma footer_checksum_round_trip_witness :
  recomputed_checksum
    (footer_of_bytes (footer_bytes (make_footer sample_footer_env 1048576)))
  = stored_checksum
      (footer_of_bytes (footer_bytes (make_footer sample_footer_env 1048576)))
  /\ checksum_matches
       (footer_of_bytes (footer_bytes (make_footer sample_footer_env 1048576)))
     = true.
Proof.
  apply (footer_checksum_round_trip sample_footer_env 1048576). lia.
Defined.

(** ** Classification of fixed-disk images *)

(** C2.  Footer stripping: when [AppendVHDFooter] has appended its footer to
    a payload of [P >= 512] bytes and the resulting file, under a name that
    is not one of the compressed kinds, is classified, [IsHDImage] reports
    [projected_size = P] and [is_vhd = TRUE]. *)
Theorem footer_stripping (ae : append_env) (e : hd_env) (path : string)
  (r : iso_report_t) (payload image : list Z) :
  512 <= Z.of_nat (List.length payload) ->
  AppendVHDFooter ae payload = (true, image) ->
  CreateFileU e path = Some image ->
  uncompressed path = true ->
  io_ok e = true ->
  projected_size (fst (IsHDImage e path r)) = Z.of_nat (List.length payload)
  /\ is_vhd (fst (IsHDImage e path r)) = true.
Proof.
  intros Hlen Happend Hopen Hunc Hio.
  apply AppendVHDFooter_success in Happend. subst image.
  set (f := make_footer (append_footer_env ae) (Z.of_nat (List.length payload))) in *.
  assert (Hwf : footer_wf f) by apply make_footer_wf.
  rewrite (IsHDImage_inspects_footer e path r payload f Hopen Hwf Hlen Hunc Hio).
  unfold inspect_footer.
  rewrite (make_footer_cookie _ _ : bytes_eqb (cookie f) conectix_str = true).
  rewrite (make_footer_supported _ _ : unsupported_vhd f = false).
  cbn [fst set_is_vhd set_projected_size projected_size is_vhd
       report_before_footer].
  split; [|reflexivity].
  rewrite length_app, (length_footer_bytes f Hwf). unfold sizeof_vhd_footer. lia.
Qed.

Lemma footer_stripping_witness :
  projected_size
    (fst (IsHDImage
            (with_file sample_hd_env "disk.vhd"
               (snd (AppendVHDFooter sample_append_env sample_payload)))
            "disk.vhd" fresh_report))
  = Z.of_nat (List.length sample_payload)
  /\ is_vhd
       (fst (IsHDImage
               (with_file sample_hd_env "disk.vhd"
                  (snd (AppendVHDFooter sample_append_env sample_payload)))
               "disk.vhd" fresh_report))
     = true.
Proof.
  apply (footer_stripping sample_append_env
           (with_file sample_hd_env "disk.vhd"
              (snd (AppendVHDFooter sample_append_env sample_payload)))
           "disk.vhd" fresh_report sample_payload
           (snd (AppendVHDFooter sample_append_env sample_payload))).
  - vm_compute. discriminate.
  - reflexivity.
  - reflexivity.
  - reflexivity.
  - reflexivity.
Defined.

Lemma poke_reserved_wf (k : nat) (v : Z) (f : vhd_footer) :
  footer_wf f -> (k < 427)%nat -> footer_wf (poke_reserved k v f).
Proof.
  intros H Hk. destruct H; constructor; unfold poke_reserved; footer_proj;
    try assumption.
  rewrite length_app, length_firstn. cbn [List.length].
  rewrite length_skipn. lia.
Qed.

Lemma poke_disk_type_wf (v : Z) (f : vhd_footer) :
  footer_wf f -> 0 <= v < 2 ^ 32 -> footer_wf (poke_disk_type v f).
Proof.
  intros H Hv. destruct H; constructor; unfold poke_disk_type; footer_proj;
    assumption.
Qed.

Lemma inspect_footer_unsupported (f : vhd_footer) (r : iso_report_t) :
  bytes_eqb (cookie f) conectix_str = true ->
  unsupported_vhd f = true ->
  inspect_footer f r
  = (set_is_bootable_img false
       (set_projected_size (projected_size r - sizeof_vhd_footer) r),
     [Unsupported_type_of_VHD_image]).
Proof.
  intros Hmagic Hsup. unfold inspect_footer. rewrite Hmagic, Hsup. reflexivity.
Qed.

Lemma with_file_opens (e : hd_env) (path : string) (image : list Z) :
  CreateFileU (with_file e path image) path = Some image.
Proof.
  unfold with_file. cbn [CreateFileU]. now rewrite String.eqb_refl.
Qed.

(** C3.  A checksum mismatch is never fatal: a file whose trailing footer
    has the magic, the supported version and the fixed disk type but a
    checksum field that differs from the recomputed one is classified
    exactly as the same file with the checksum field corrected
    ([is_bootable_img], [is_vhd], [projected_size] and compression type all
    agree); the mismatch only adds a warning line.  The footer is
    arbitrary otherwise, so this covers a footer whose [reserved] bytes were
    altered after encoding: [is_vhd] is still set and bootability is the MBR
    verdict, not forced off. *)
Theorem checksum_mismatch_not_fatal (e : hd_env) (path : string)
  (r : iso_report_t) (payload : list Z) (f : vhd_footer) :
  footer_wf f ->
  512 <= Z.of_nat (List.length payload) ->
  uncompressed path = true ->
  io_ok e = true ->
  bytes_eqb (cookie f) conectix_str = true ->
  unsupported_vhd f = false ->
  checksum_matches f = false ->
  AnalyzeMBR e (payload ++ footer_bytes f)
  = AnalyzeMBR e (payload ++ footer_bytes (repair_checksum f)) ->
  checksum_matches (repair_checksum f) = true
  /\ fst (IsHDImage (with_file e path (payload ++ footer_bytes f)) path r)
     = fst (IsHDImage
              (with_file e path (payload ++ footer_bytes (repair_checksum f)))
              path r)
  /\ is_vhd (fst (IsHDImage (with_file e path (payload ++ footer_bytes f))
                            path r)) = true
  /\ is_bootable_img
       (fst (IsHDImage (with_file e path (payload ++ footer_bytes f)) path r))
     = AnalyzeMBR e (payload ++ footer_bytes f)
  /\ snd (IsHDImage (with_file e path (payload ++ footer_bytes f)) path r)
     = VHD_footer_seems_corrupted (stored_checksum f) (recomputed_checksum f)
       :: snd (IsHDImage
                 (with_file e path (payload ++ footer_bytes (repair_checksum f)))
                 path r).
Proof.
  intros Hwf Hlen Hunc Hio Hmagic Hsup Hbad Hmbr.
  assert (Hwf' : footer_wf (repair_checksum f))
    by (apply set_checksum_wf; [exact Hwf | apply bswap_uint32_range]).
  pose proof (repair_checksum_matches f) as Hgood.
  rewrite (IsHDImage_inspects_footer _ path r payload f
             (with_file_opens _ _ _) Hwf Hlen Hunc Hio).
  rewrite (IsHDImage_inspects_footer _ path r payload (repair_checksum f)
             (with_file_opens _ _ _) Hwf' Hlen Hunc Hio).
  unfold report_before_footer. cbn [with_file AnalyzeMBR].
  rewrite <- Hmbr, !length_app.
  rewrite (length_footer_bytes _ Hwf), (length_footer_bytes _ Hwf').
  unfold inspect_footer.
  replace (cookie (repair_checksum f)) with (cookie f) by reflexivity.
  replace (unsupported_vhd (repair_checksum f)) with (unsupported_vhd f)
    by reflexivity.
  rewrite Hmagic, Hsup, Hbad, Hgood.
  cbn [fst snd app set_is_vhd set_projected_size is_vhd is_bootable_img].
  repeat split; reflexivity.
Qed.

Lemma checksum_mismatch_not_fatal_witness :
  checksum_matches corrupted_footer = false
  /\ is_vhd (fst (IsHDImage
                    (with_file sample_hd_env "disk.vhd"
                       (sample_payload ++ footer_bytes corrupted_footer))
                    "disk.vhd" fresh_report)) = true
  /\ is_bootable_img
       (fst (IsHDImage
               (with_file sample_hd_env "disk.vhd"
                  (sample_payload ++ footer_bytes corrupted_footer))
               "disk.vhd" fresh_report))
     = AnalyzeMBR sample_hd_env (sample_payload ++ footer_bytes corrupted_footer).
Proof.
  assert (Hbad : checksum_matches corrupted_footer = false)
    by (vm_compute; reflexivity).
  split; [exact Hbad|].
  assert (Hwf : footer_wf corrupted_footer)
    by (apply poke_reserved_wf; [apply make_footer_wf | lia]).
  assert (Hlen : 512 <= Z.of_nat (List.length sample_payload))
    by (vm_compute; discriminate).
  assert (Hmbr : AnalyzeMBR sample_hd_env
                   (sample_payload ++ footer_bytes corrupted_footer)
                 = AnalyzeMBR sample_hd_env
                     (sample_payload
                      ++ footer_bytes (repair_checksum corrupted_footer)))
    by (vm_compute; reflexivity).
  destruct (checksum_mismatch_not_fatal sample_hd_env "disk.vhd" fresh_report
              sample_payload corrupted_footer Hwf Hlen eq_refl eq_refl
              eq_refl eq_refl Hbad Hmbr) as (_ & _ & Hvhd & Hboot & _).
  split; assumption.
Defined.

(** The closed form on which the statements about the support check rest:
    once the magic matches, the report depends on the footer only through
    the version and the disk type. *)
Lemma IsHDImage_magic_matches (e : hd_env) (path : string) (r : iso_report_t)
  (payload : list Z) (f : vhd_footer) :
  CreateFileU e path = Some (payload ++ footer_bytes f) ->
  footer_wf f ->
  512 <= Z.of_nat (List.length payload) ->
  uncompressed path = true ->
  io_ok e = true ->
  bytes_eqb (cookie f) conectix_str = true ->
  fst (IsHDImage e path r)
  = if unsupported_vhd f
    then mk_iso_report BLED_COMPRESSION_NONE false
           (Z.of_nat (List.length payload)) (is_vhd r)
    else mk_iso_report BLED_COMPRESSION_NONE
           (AnalyzeMBR e (payload ++ footer_bytes f))
           (Z.of_nat (List.length payload)) true.
Proof.
  intros Hopen Hwf Hlen Hunc Hio Hmagic.
  rewrite (IsHDImage_inspects_footer e path r payload f Hopen Hwf Hlen Hunc Hio).
  unfold report_before_footer, inspect_footer. rewrite Hmagic.
  rewrite length_app, (length_footer_bytes f Hwf).
  destruct (unsupported_vhd f);
    unfold set_is_bootable_img, set_is_vhd, set_projected_size;
    cbn [fst projected_size compression_type is_bootable_img is_vhd];
    f_equal; unfold sizeof_vhd_footer; lia.
Qed.

(** C6 as stated fails: a footer with the magic, version 1.0 and the fixed
    disk type is accepted although its [data_offset] is 0, not all-ones;
    [is_vhd] is set and bootability stays with the MBR verdict. *)
Lemma supported_variant_gate_counterexample :
  bytes_eqb (cookie zero_offset_footer) conectix_str = true
  /\ data_offset zero_offset_footer <> VHD_FOOTER_DATA_OFFSET_FIXED_DISK
  /\ bswap_uint64 (data_offset zero_offset_footer)
     <> VHD_FOOTER_DATA_OFFSET_FIXED_DISK
  /\ is_bootable_img
       (fst (IsHDImage
               (with_file sample_hd_env "disk.vhd"
                  (sample_payload ++ footer_bytes zero_offset_footer))
               "disk.vhd" fresh_report)) = true
  /\ is_vhd
       (fst (IsHDImage
               (with_file sample_hd_env "disk.vhd"
                  (sample_payload ++ footer_bytes zero_offset_footer))
               "disk.vhd" fresh_report)) = true.
Proof.
  repeat split; try (vm_compute; reflexivity); vm_compute; discriminate.
Qed.

(** C6, amended.  Supported-variant gate: for every footer with matching
    magic, classification treats the record as the supported variant
    exactly when [file_format_version] is 1.0 and [disk_type] is the fixed
    hard disk; then [is_vhd] is set and bootability is the MBR verdict,
    whatever [data_offset] holds.  Any other combination of version and
    disk type is classified as unsupported: [is_bootable_img] is forced to
    false and [is_vhd] is left as it was. *)
Theorem supported_variant_gate (e : hd_env) (path : string) (r : iso_report_t)
  (payload : list Z) (f : vhd_footer) :
  CreateFileU e path = Some (payload ++ footer_bytes f) ->
  footer_wf f ->
  512 <= Z.of_nat (List.length payload) ->
  uncompressed path = true ->
  io_ok e = true ->
  bytes_eqb (cookie f) conectix_str = true ->
  fst (IsHDImage e path r)
  = if (bswap_uint32 (file_format_version f) =? VHD_FOOTER_FILE_FORMAT_V1_0)
       && (bswap_uint32 (disk_type f) =? VHD_FOOTER_TYPE_FIXED_HARD_DISK)
    then mk_iso_report BLED_COMPRESSION_NONE
           (AnalyzeMBR e (payload ++ footer_bytes f))
           (Z.of_nat (List.length payload)) true
    else mk_iso_report BLED_COMPRESSION_NONE false
           (Z.of_nat (List.length payload)) (is_vhd r).
Proof.
  intros Hopen Hwf Hlen Hunc Hio Hmagic.
  rewrite (IsHDImage_magic_matches e path r payload f
             Hopen Hwf Hlen Hunc Hio Hmagic).
  rewrite unsupported_vhd_test.
  destruct ((bswap_uint32 (file_format_version f) =? VHD_FOOTER_FILE_FORMAT_V1_0)
            && (bswap_uint32 (disk_type f) =? VHD_FOOTER_TYPE_FIXED_HARD_DISK));
    reflexivity.
Qed.

Lemma supported_variant_gate_witness :
  fst (IsHDImage
         (with_file sample_hd_env "disk.vhd"
            (sample_payload ++ footer_bytes dynamic_footer))
         "disk.vhd" stale_report)
  = mk_iso_report BLED_COMPRESSION_NONE false 512 true.
Proof.
  assert (Hwf : footer_wf dynamic_footer)
    by (apply set_checksum_wf, bswap_uint32_range;
        apply poke_disk_type_wf, bswap_uint32_range; apply make_footer_wf).
  assert (Hlen : 512 <= Z.of_nat (List.length sample_payload))
    by (vm_compute; discriminate).
  rewrite (supported_variant_gate
             (with_file sample_hd_env "disk.vhd"
                (sample_payload ++ footer_bytes dynamic_footer))
             "disk.vhd" stale_report sample_payload dynamic_footer
             eq_refl Hwf Hlen eq_refl eq_refl eq_refl).
  vm_compute. reflexivity.
Defined.

(** Whatever the report holds, a failed open leaves it alone: the function
    prints the open-failure line and returns the flag the report holds. *)
Lemma open_failure_keeps_report (e : hd_env) (path : string)
  (r : iso_report_t) :
  CreateFileU e path = None ->
  IsHDImage e path r = (r, [Could_not_open_image path])
  /\ IsHDImage_result e path r = is_bootable_img r.
Proof.
  intros Hopen. unfold IsHDImage_result, IsHDImage. rewrite Hopen.
  split; reflexivity.
Qed.

(** C7.  Open-failure result: for every path that cannot be opened for
    reading, [IsHDImage], run on a report created fresh for the call,
    yields a report whose [is_bootable_img] flag is false and returns
    false; no other signal is produced: no field of the report is written
    and the open-failure line is all that is printed. *)
Theorem open_failure_result (e : hd_env) (path : string) :
  CreateFileU e path = None ->
  is_bootable_img (fst (IsHDImage e path fresh_report)) = false
  /\ IsHDImage_result e path fresh_report = false
  /\ IsHDImage e path fresh_report
     = (fresh_report, [Could_not_open_image path]).
Proof.
  intros Hopen.
  destruct (open_failure_keeps_report e path fresh_report Hopen) as [Hrun Hret].
  rewrite Hrun, Hret. repeat split.
Qed.

Lemma open_failure_result_witness :
  is_bootable_img (fst (IsHDImage sample_hd_env "missing.img" fresh_report))
  = false
  /\ IsHDImage_result sample_hd_env "missing.img" fresh_report = false
  /\ IsHDImage sample_hd_env "missing.img" fresh_report
     = (fresh_report, [Could_not_open_image "missing.img"]).
Proof.
  apply (open_failure_result sample_hd_env "missing.img"). reflexivity.
Defined.

(** C10.  The footer is subtracted before the support check: for every
    classified file whose trailing footer has the magic but an unsupported
    version or disk type, [projected_size] is the file size less 512 even
    though [IsHDImage] returns false, so the reported size differs from the
    file size for the unusable VHD variants too. *)
Theorem footer_subtracted_before_support_check (e : hd_env) (path : string)
  (r : iso_report_t) (payload : list Z) (f : vhd_footer) :
  CreateFileU e path = Some (payload ++ footer_bytes f) ->
  footer_wf f ->
  512 <= Z.of_nat (List.length payload) ->
  uncompressed path = true ->
  io_ok e = true ->
  bytes_eqb (cookie f) conectix_str = true ->
  bswap_uint32 (file_format_version f) <> VHD_FOOTER_FILE_FORMAT_V1_0
  \/ bswap_uint32 (disk_type f) <> VHD_FOOTER_TYPE_FIXED_HARD_DISK ->
  projected_size (fst (IsHDImage e path r))
  = Z.of_nat (List.length (payload ++ footer_bytes f)) - 512
  /\ projected_size (fst (IsHDImage e path r))
     <> Z.of_nat (List.length (payload ++ footer_bytes f))
  /\ IsHDImage_result e path r = false
  /\ snd (IsHDImage e path r) = [Unsupported_type_of_VHD_image].
Proof.
  intros Hopen Hwf Hlen Hunc Hio Hmagic Hbad.
  apply unsupported_vhd_spec in Hbad.
  unfold IsHDImage_result.
  rewrite (IsHDImage_inspects_footer e path r payload f Hopen Hwf Hlen Hunc Hio).
  rewrite (inspect_footer_unsupported f _ Hmagic Hbad).
  unfold report_before_footer, set_is_bootable_img, set_projected_size.
  cbn [fst snd projected_size is_bootable_img]. unfold sizeof_vhd_footer.
  repeat split; lia.
Qed.

Lemma footer_subtracted_before_support_check_witness :
  projected_size
    (fst (IsHDImage
            (with_file sample_hd_env "disk.vhd"
               (sample_payload ++ footer_bytes dynamic_footer))
            "disk.vhd" fresh_report))
  = Z.of_nat (List.length (sample_payload ++ footer_bytes dynamic_footer)) - 512
  /\ IsHDImage_result
       (with_file sample_hd_env "disk.vhd"
          (sample_payload ++ footer_bytes dynamic_footer))
       "disk.vhd" fresh_report = false.
Proof.
  assert (Hwf : footer_wf dynamic_footer)
    by (apply set_checksum_wf, bswap_uint32_range;
        apply poke_disk_type_wf, bswap_uint32_range; apply make_footer_wf).
  assert (Hlen : 512 <= Z.of_nat (List.length sample_payload))
    by (vm_compute; discriminate).
  assert (Hbad : bswap_uint32 (file_format_version dynamic_footer)
                 <> VHD_FOOTER_FILE_FORMAT_V1_0
                 \/ bswap_uint32 (disk_type dynamic_footer)
                    <> VHD_FOOTER_TYPE_FIXED_HARD_DISK)
    by (right; vm_compute; discriminate).
  destruct (footer_subtracted_before_support_check
              (with_file sample_hd_env "disk.vhd"
                 (sample_payload ++ footer_bytes dynamic_footer))
              "disk.vhd" fresh_report sample_payload dynamic_footer
              eq_refl Hwf Hlen eq_refl eq_refl eq_refl Hbad)
    as (Hsize & _ & Hret & _).
  split; assumption.
Defined.

(** ** CHS geometry *)

(** C5 as stated fails: with exactly 65535*16*63 sectors the first branch
    is taken and 255 sectors per track are selected, not 63. *)
Lemma chs_threshold_counterexample :
  total_sectors (65535 * 16 * 63 * 512) = 65535 * 16 * 63
  /\ ~ (v_sectorsPerTrack (chs_select (65535 * 16 * 63)) = 63
        /\ v_heads (chs_select (65535 * 16 * 63)) = 16).
Proof.
  split; [reflexivity|]. intros [H _]. vm_compute in H. discriminate.
Qed.

Lemma total_sectors_clamped (li : Z) :
  0 <= li < 2 ^ 63 ->
  65535 * 16 * 255 < li / 512 ->
  total_sectors li = 65535 * 16 * 255.
Proof.
  intros Hli Hbig. unfold total_sectors, to_uint.
  rewrite Z.quot_div_nonneg by lia.
  assert (Hq : 0 <= li / 512 < 2 ^ 64).
  { split; [apply Z.div_pos; lia|].
    apply Z.div_lt_upper_bound; lia. }
  rewrite Z.mod_small by exact Hq.
  destruct (li / 512 >? 65535 * 16 * 255) eqn:Hcmp; [reflexivity|].
  rewrite Z.gtb_ltb, Z.ltb_ge in Hcmp. lia.
Qed.

(** C5, amended.  CHS at the threshold: run with exactly 65535*16*63
    sectors, the geometry algorithm selects 255 sectors per track and 16
    heads; and for every image size whose sector count exceeds
    65535*16*255, [totalSectors] is clamped to 65535*16*255 before the
    geometry is computed. *)
Theorem chs_threshold (e : footer_env) (li : Z) :
  0 <= li < 2 ^ 63 ->
  65535 * 16 * 255 < li / 512 ->
  v_sectorsPerTrack (chs_select (65535 * 16 * 63)) = 255
  /\ v_heads (chs_select (65535 * 16 * 63)) = 16
  /\ total_sectors li = 65535 * 16 * 255
  /\ chs_select (total_sectors li) = mk_chs 255 16 (65535 * 16)
  /\ chs_sectors (make_footer e li) = 255
  /\ chs_heads (make_footer e li) = 16.
Proof.
  intros Hli Hbig.
  pose proof (total_sectors_clamped li Hli Hbig) as Hts.
  split; [reflexivity|]. split; [reflexivity|]. split; [exact Hts|].
  unfold make_footer, footer_fields, set_checksum; footer_proj.
  rewrite Hts. repeat split; reflexivity.
Qed.

Lemma chs_threshold_witness :
  total_sectors (2 ^ 40) = 65535 * 16 * 255
  /\ chs_select (total_sectors (2 ^ 40)) = mk_chs 255 16 (65535 * 16).
Proof.
  assert (Hli : 0 <= 2 ^ 40 < 2 ^ 63) by (vm_compute; split; congruence).
  assert (Hbig : 65535 * 16 * 255 < 2 ^ 40 / 512) by reflexivity.
  destruct (chs_threshold sample_footer_env (2 ^ 40) Hli Hbig)
    as (_ & _ & Hts & Hchs & _).
  split; assumption.
Defined.

(** ** Classification by extension *)

Local Open Scope string_scope.

Lemma string_length_app (a b : string) :
  String.length (a ++ b) = (String.length a + String.length b)%nat.
Proof.
  induction a as [|c a IH]; simpl; [reflexivity|]. now rewrite IH.
Qed.

Lemma get_app_right (a b : string) (n : nat) :
  String.get (String.length a + n) (a ++ b) = String.get n b.
Proof.
  induction a as [|c a IH]; simpl; [reflexivity|]. exact IH.
Qed.

Lemma substring_all (s : string) : String.substring 0 (String.length s) s = s.
Proof.
  induction s as [|c s IH]; simpl; [reflexivity|]. now rewrite IH.
Qed.

Lemma substring_app_right (a b : string) :
  String.substring (String.length a) (String.length b) (a ++ b) = b.
Proof.
  induction a as [|c a IH]; simpl; [apply substring_all|]. exact IH.
Qed.

Lemma is_dot_at_no_dot (s : string) (i : nat) :
  no_dot s = true -> is_dot_at s i = false.
Proof.
  unfold is_dot_at. revert i.
  induction s as [|c s IH]; intros i H; [destruct i; reflexivity|].
  simpl in H. apply andb_prop in H as [Hc Hs].
  destruct i as [|i]; simpl.
  - now apply negb_true_iff in Hc.
  - apply IH, Hs.
Qed.

Lemma scan_back_no_dot (s : string) (p : nat) :
  no_dot s = true -> scan_back s p = 0%nat.
Proof.
  intros H. induction p as [|p IH]; simpl; [reflexivity|].
  now rewrite is_dot_at_no_dot.
Qed.

Lemma scan_back_final_dot (stem extension : string) (k : nat) :
  no_dot extension = true ->
  scan_back (stem ++ String "." extension) (String.length stem + k)
  = String.length stem.
Proof.
  intros H. induction k as [|k IH].
  - rewrite Nat.add_0_r.
    destruct (String.length stem) as [|n] eqn:Hn; [reflexivity|].
    cbn [scan_back]. unfold is_dot_at.
    replace (S n) with (String.length stem + 0)%nat by lia.
    rewrite get_app_right. reflexivity.
  - rewrite Nat.add_succ_r. cbn [scan_back]. unfold is_dot_at.
    replace (S (String.length stem + k)) with (String.length stem + S k)%nat
      by lia.
    rewrite get_app_right. cbn [String.get].
    pose proof (is_dot_at_no_dot extension k H) as Hk. unfold is_dot_at in Hk.
    rewrite Hk. exact IH.
Qed.

Lemma IsCompressedBootableImage_final_dot (stem extension : string)
  (r : iso_report_t) :
  stem <> "" ->
  no_dot extension = true ->
  compression_type
    (fst (IsCompressedBootableImage (stem ++ "." ++ extension) r))
  = table_type ("." ++ extension).
Proof.
  intros Hstem Hext. unfold IsCompressedBootableImage, table_type, tail_from.
  change ("." ++ extension) with (String "." extension).
  rewrite string_length_app. cbn [String.length].
  replace (String.length stem + S (String.length extension) - 1)%nat
    with (String.length stem + String.length extension)%nat by lia.
  rewrite scan_back_final_dot by exact Hext.
  replace (String.length stem + S (String.length extension)
           - String.length stem)%nat
    with (String.length (String "." extension)) by (cbn [String.length]; lia).
  rewrite substring_app_right.
  destruct (Nat.eqb (String.length stem) 0) eqn:Hz.
  - apply Nat.eqb_eq in Hz. destruct stem; [congruence|discriminate].
  - destruct (match_ext (String "." extension) blah); reflexivity.
Qed.

Lemma IsCompressedBootableImage_no_dot (path : string) (r : iso_report_t) :
  path <> "" ->
  no_dot path = true ->
  IsCompressedBootableImage path r
  = (set_compression_type BLED_COMPRESSION_NONE r, false).
Proof.
  intros _ H. unfold IsCompressedBootableImage.
  now rewrite scan_back_no_dot.
Qed.

(** C8.  Extension classification, and the path on which the code misses
    it.  For every path with a non-empty stem before its final dot the
    substring that starts at that dot is looked up in the fixed
    case-sensitive table, and a non-empty path without a dot yields none:
    ["image.tar.gz"] yields gzip, ["image"] none, ["image.z"] none and
    ["image.Z"] lzw.  On the path [".Z"] the code does not do what the
    claim says: the table maps [".Z"] to lzw, but the scan of line 236
    ends at index 0, line 238 takes that for a path without a dot, and the
    function leaves none in the report and returns [FALSE], although the
    same name behind a directory, ["C:\.Z"], yields lzw. *)
Theorem extension_classification_misses_leading_dot :
  (forall (stem extension : string) (r : iso_report_t),
     stem <> "" ->
     no_dot extension = true ->
     compression_type
       (fst (IsCompressedBootableImage (stem ++ "." ++ extension) r))
     = table_type ("." ++ extension))
  /\ (forall (path : string) (r : iso_report_t),
        path <> "" ->
        no_dot path = true ->
        compression_type (fst (IsCompressedBootableImage path r))
        = BLED_COMPRESSION_NONE)
  /\ (forall r : iso_report_t,
        compression_type (fst (IsCompressedBootableImage "image.tar.gz" r))
        = BLED_COMPRESSION_GZIP
        /\ compression_type (fst (IsCompressedBootableImage "image" r))
           = BLED_COMPRESSION_NONE
        /\ compression_type (fst (IsCompressedBootableImage "image.z" r))
           = BLED_COMPRESSION_NONE
        /\ compression_type (fst (IsCompressedBootableImage "image.Z" r))
           = BLED_COMPRESSION_LZW
        /\ compression_type (fst (IsCompressedBootableImage "C:\.Z" r))
           = BLED_COMPRESSION_LZW)
  /\ table_type ".Z" = BLED_COMPRESSION_LZW
  /\ (forall r : iso_report_t,
        IsCompressedBootableImage ".Z" r
        = (set_compression_type BLED_COMPRESSION_NONE r, false)).
Proof.
  split; [intros stem extension r Hstem Hext;
          now apply IsCompressedBootableImage_final_dot|].
  split; [intros path r Hpath Hdot;
          now rewrite IsCompressedBootableImage_no_dot|].
  repeat split; reflexivity.
Qed.

(** ** WIM extraction *)

Local Open Scope wim_scope.
Local Open Scope list_scope.

(** Unfold the monad. *)
Ltac run_wim :=
  unfold bind, ret, gets, emit, set_has_wimgapi, set_has_7z, set_sevenzip_path;
  cbn.

Lemma WimExtractFile_API_trace (e : wim_env) (image : string) (index : Z)
  (src dst : string) (s : wim_state) :
  exists after,
    wim_trace (snd (WimExtractFile_API e image index src dst s))
    = wim_trace s ++ Enter_API image index :: after.
Proof.
  unfold WimExtractFile_API, close_handles.
  destruct (wimgapi_entry_points e), (GetTempPathW_ok e), (WIMCreateFile_ok e),
    (WIMSetTemporaryPath_ok e), (WIMLoadImage_ok e), (WIMExtractImagePath_ok e);
    run_wim; repeat rewrite <- app_assoc; cbn [app];
    eexists; reflexivity.
Qed.

Lemma WimExtractFile_7z_artifact_absent (e : wim_env) (image : string)
  (index : Z) (src dst : string) (s : wim_state) :
  CreateProcessU_ok e = true ->
  extracted e (artifact_path dst) = false ->
  WimExtractFile_7z e image index src dst s
  = (false,
     mk_wim_state (has_wimgapi s) (has_7z s) (sevenzip_path s)
       (wim_trace s
        ++ [Enter_7z image index;
            CreateProcess_7z image index src (extraction_dir dst);
            UpdateProgress_finalize])).
Proof.
  intros Hlaunch Habsent. unfold WimExtractFile_7z.
  rewrite Hlaunch, Habsent. run_wim.
  repeat rewrite <- app_assoc. reflexivity.
Qed.

(** With a backend already marked available no probe runs, and with all
    three pointers set the call is the ordered disjunction of the two
    backends. *)
Lemma WimExtractFile_dispatch (e : wim_env) (image : string) (index : Z)
  (src dst : string) (s : wim_state) :
  has_wimgapi s || has_7z s = true ->
  WimExtractFile e (Some image) index (Some src) (Some dst) s
  = (by_7z <- (if has_7z s then WimExtractFile_7z e image index src dst
               else ret false) ;;
     if by_7z then ret true
     else
       hw <- gets has_wimgapi ;;
       if hw then WimExtractFile_API e image index src dst else ret false) s.
Proof.
  destruct s as [hw h7 p t]. cbn [has_wimgapi has_7z]. intros H.
  destruct hw, h7; try discriminate; unfold WimExtractFile; run_wim;
    reflexivity.
Qed.

(** C4.  Backend fallback: when both backends are marked available and the
    7-Zip run ends without the expected artifact in the extraction
    directory, the 7-Zip attempt returns false and [WimExtractFile] goes on
    to call [WimExtractFile_API] before it returns; the call then returns
    what the API backend returns.  The 7-Zip backend is entered first, the
    API backend after it. *)
Theorem backend_fallback (e : wim_env) (s : wim_state) (image : string)
  (index : Z) (src dst : string) :
  has_7z s = true ->
  has_wimgapi s = true ->
  CreateProcessU_ok e = true ->
  extracted e (artifact_path dst) = false ->
  fst (WimExtractFile_7z e image index src dst s) = false
  /\ WimExtractFile e (Some image) index (Some src) (Some dst) s
     = WimExtractFile_API e image index src dst
         (snd (WimExtractFile_7z e image index src dst s))
  /\ exists before after,
       wim_trace (snd (WimExtractFile e (Some image) index (Some src)
                         (Some dst) s))
       = wim_trace s ++ before ++ Enter_API image index :: after
       /\ In (Enter_7z image index) before
       /\ ~ In (Enter_API image index) before.
Proof.
  intros H7 Hw Hlaunch Habsent.
  pose proof (WimExtractFile_7z_artifact_absent e image index src dst s
                Hlaunch Habsent) as Htool.
  assert (Hcall :
    WimExtractFile e (Some image) index (Some src) (Some dst) s
    = WimExtractFile_API e image index src dst
        (snd (WimExtractFile_7z e image index src dst s))).
  { rewrite WimExtractFile_dispatch by (rewrite H7; apply orb_true_r).
    rewrite H7. unfold bind at 1. rewrite Htool. run_wim.
    rewrite Hw. reflexivity. }
  split; [rewrite Htool; reflexivity|].
  split; [exact Hcall|].
  rewrite Hcall.
  destruct (WimExtractFile_API_trace e image index src dst
              (snd (WimExtractFile_7z e image index src dst s)))
    as [after Hafter].
  rewrite Hafter, Htool. cbn [snd wim_trace].
  exists [Enter_7z image index;
          CreateProcess_7z image index src (extraction_dir dst);
          UpdateProgress_finalize], after.
  split; [now rewrite <- app_assoc|].
  split; [left; reflexivity|].
  intros [H|[H|[H|[]]]]; discriminate.
Qed.

Lemma backend_fallback_witness :
  WimExtractFile sample_wim_env (Some "D:\sources\install.wim") 1
    (Some "Windows\Boot\EFI\bootmgfw.efi") (Some "E:\efi\boot\bootx64.efi")
    probed
  = WimExtractFile_API sample_wim_env "D:\sources\install.wim" 1
      "Windows\Boot\EFI\bootmgfw.efi" "E:\efi\boot\bootx64.efi"
      (snd (WimExtractFile_7z sample_wim_env "D:\sources\install.wim" 1
              "Windows\Boot\EFI\bootmgfw.efi" "E:\efi\boot\bootx64.efi"
              probed)).
Proof.
  destruct (backend_fallback sample_wim_env probed "D:\sources\install.wim" 1
              "Windows\Boot\EFI\bootmgfw.efi" "E:\efi\boot\bootx64.efi"
              eq_refl eq_refl eq_refl eq_refl) as (_ & H & _).
  exact H.
Defined.

(** C9 as stated fails: with no backend marked available yet, the probe
    runs before the pointer check, so a call with a null image pointer
    still rewrites the flags and the 7-Zip path. *)
Lemma null_argument_guard_counterexample :
  has_7z unprobed = false
  /\ has_7z (snd (WimExtractFile sample_wim_env None 1
                    (Some "Windows\Boot\EFI\bootmgfw.efi")
                    (Some "E:\efi\boot\bootx64.efi") unprobed)) = true
  /\ snd (WimExtractFile sample_wim_env None 1
            (Some "Windows\Boot\EFI\bootmgfw.efi")
            (Some "E:\efi\boot\bootx64.efi") unprobed) <> unprobed.
Proof.
  split; [reflexivity|]. split; [reflexivity|]. vm_compute. discriminate.
Qed.

(** C9, amended.  Null-argument guard: for every call to [WimExtractFile]
    in which the image, source or destination pointer is null, the function
    returns false without entering either extraction backend and without
    reporting progress; the flags, the 7-Zip path and the trace are exactly
    as before whenever a backend was already marked available (otherwise
    [WimExtractCheck] runs first and may set them). *)
Theorem null_argument_guard (e : wim_env) (s : wim_state)
  (image : option string) (index : Z) (src dst : option string) :
  image = None \/ src = None \/ dst = None ->
  fst (WimExtractFile e image index src dst s) = false
  /\ filter is_backend_event
       (wim_trace (snd (WimExtractFile e image index src dst s)))
     = filter is_backend_event (wim_trace s)
  /\ (has_wimgapi s || has_7z s = true ->
      snd (WimExtractFile e image index src dst s) = s).
Proof.
  intros Hnull.
  unfold WimExtractFile, WimExtractCheck, Get7ZipPath.
  destruct s as [hw h7 p t].
  destruct (GetRegistryKeyStr e REGKEY_HKCU) as [found1 buf1].
  destruct (GetRegistryKeyStr e REGKEY_HKLM) as [found2 buf2].
  destruct Hnull as [->|[->| ->]];
    [|destruct image|destruct image; [destruct src|]];
    destruct hw, h7, found1, found2, (wimgapi_entry_points e); run_wim;
    try destruct (access_ok e (safe_strcat MAX_PATH buf1 "\7z.exe"));
    try destruct (access_ok e (safe_strcat MAX_PATH buf2 "\7z.exe"));
    cbn; rewrite ?filter_app; cbn [filter is_backend_event];
    rewrite ?app_nil_r;
    repeat split; try reflexivity; discriminate.
Qed.

Lemma null_argument_guard_witness :
  fst (WimExtractFile sample_wim_env None 1
         (Some "Windows\Boot\EFI\bootmgfw.efi")
         (Some "E:\efi\boot\bootx64.efi") probed) = false
  /\ snd (WimExtractFile sample_wim_env None 1
            (Some "Windows\Boot\EFI\bootmgfw.efi")
            (Some "E:\efi\boot\bootx64.efi") probed) = probed.
Proof.
  destruct (null_argument_guard sample_wim_env probed None 1
              (Some "Windows\Boot\EFI\bootmgfw.efi")
              (Some "E:\efi\boot\bootx64.efi") (or_introl eq_refl))
    as (Hret & _ & Hstate).
  split; [exact Hret | exact (Hstate eq_refl)].
Defined.


(* ------------------------------------------------------------------ *)
(** * Further properties *)

Local Open Scope Z_scope.
Local Open Scope list_scope.

(** ** AppendVHDFooter and the file *)

Lemma firstn_length_app (a b : list Z) : firstn (List.length a) (a ++ b) = a.
Proof.
  rewrite firstn_app, Nat.sub_diag, firstn_all. cbn [firstn].
  apply app_nil_r.
Qed.

(** X1.  [AppendVHDFooter] only ever appends: whatever the system calls
    answer, the bytes the file held are still its first bytes and at most
    512 bytes are added; nothing is added when the file cannot be opened or
    the struct cannot be allocated; and the function returns [TRUE] exactly
    when the open, the allocation and the write of all 512 bytes succeed,
    in which case the file is 512 bytes longer. *)
Theorem AppendVHDFooter_only_appends (ae : append_env) (image : list Z) :
  firstn (List.length image) (snd (AppendVHDFooter ae image)) = image
  /\ (List.length image <= List.length (snd (AppendVHDFooter ae image))
      <= List.length image + 512)%nat
  /\ (append_open_ok ae && calloc_ok ae = false ->
      snd (AppendVHDFooter ae image) = image)
  /\ fst (AppendVHDFooter ae image)
     = append_open_ok ae && calloc_ok ae && fst (WriteFile ae)
       && Nat.eqb (snd (WriteFile ae)) 512
  /\ (fst (AppendVHDFooter ae image) = true ->
      List.length (snd (AppendVHDFooter ae image))
      = (List.length image + 512)%nat).
Proof.
  unfold AppendVHDFooter.
  destruct (append_open_ok ae); cbn [negb andb];
    [|cbn [fst snd]; rewrite firstn_all;
      repeat split; try reflexivity; try lia; discriminate].
  destruct (calloc_ok ae); cbn [negb andb];
    [|cbn [fst snd]; rewrite firstn_all;
      repeat split; try reflexivity; try lia; discriminate].
  destruct (WriteFile ae) as [ok size]. cbn [fst snd].
  pose proof (length_footer_bytes _
                (make_footer_wf (append_footer_env ae)
                   (Z.of_nat (List.length image)))) as Hfb.
  assert (Hlen : forall x : bool * list Z,
             snd x = image ++ firstn size
                       (footer_bytes (make_footer (append_footer_env ae)
                                        (Z.of_nat (List.length image)))) ->
             firstn (List.length image) (snd x) = image
             /\ (List.length image <= List.length (snd x)
                 <= List.length image + 512)%nat).
  { intros x ->. rewrite firstn_length_app, length_app, length_firstn, Hfb.
    split; [reflexivity|]. split; [apply Nat.le_add_r|].
    apply Nat.add_le_mono_l, Nat.le_min_r. }
  destruct ok, (Nat.eqb size 512) eqn:Hsize; cbn [negb orb andb];
    (split; [apply Hlen; reflexivity|]);
    (split; [apply Hlen; reflexivity|]);
    (split; [discriminate|]); (split; [reflexivity|]);
    try discriminate.
  intros _. cbn [snd]. apply Nat.eqb_eq in Hsize. subst size.
  rewrite length_app, length_firstn, Hfb. rewrite Nat.min_id. reflexivity.
Qed.

(** ** The fields of the encoded footer *)

Lemma le_bytes_bswap (w : nat) (v : Z) :
  le_bytes w (bswap w v) = rev (le_bytes w v).
Proof.
  unfold bswap.
  pose proof (le_bytes_le_value _ (rev_le_bytes_is_byte w v)) as H.
  now rewrite length_rev, length_le_bytes in H.
Qed.

(** X2.  The image size survives the footer: for every size that fits 64
    bits, the size field of the footer read back from its 512 bytes and
    converted from big-endian is the size [AppendVHDFooter] found, the
    current size equals the original size, and the eight bytes of the field
    are the bytes of the size, most significant first. *)
Theorem footer_records_size (e : footer_env) (li : Z) :
  0 <= li < 2 ^ 64 ->
  bswap_uint64
    (original_size (footer_of_bytes (footer_bytes (make_footer e li)))) = li
  /\ current_size (footer_of_bytes (footer_bytes (make_footer e li)))
     = original_size (footer_of_bytes (footer_bytes (make_footer e li)))
  /\ le_bytes 8 (original_size (make_footer e li)) = rev (le_bytes 8 li).
Proof.
  intros Hli.
  rewrite footer_of_bytes_footer_bytes by apply make_footer_wf.
  unfold make_footer, set_checksum, footer_fields; footer_proj.
  split; [|split; [reflexivity|apply (le_bytes_bswap 8)]].
  unfold bswap_uint64. rewrite bswap_bswap. apply Z.mod_small. exact Hli.
Qed.

Lemma footer_records_size_witness :
  bswap_uint64
    (original_size
       (footer_of_bytes (footer_bytes (make_footer sample_footer_env 1048576))))
  = 1048576.
Proof.
  assert (Hli : 0 <= 1048576 < 2 ^ 64) by (vm_compute; split; congruence).
  destruct (footer_records_size sample_footer_env 1048576 Hli) as (H & _).
  exact H.
Defined.

(** ** CHS geometry *)

Lemma total_sectors_range (li : Z) :
  0 <= total_sectors li <= 65535 * 16 * 255.
Proof.
  unfold total_sectors, to_uint.
  pose proof (Z.mod_pos_bound (Z.quot li 512) (2 ^ 64) ltac:(lia)) as H.
  destruct (Z.quot li 512 mod 2 ^ 64 >? 65535 * 16 * 255) eqn:Hc; [lia|].
  rewrite Z.gtb_ltb, Z.ltb_ge in Hc. lia.
Qed.

Lemma to_uint_small (bits v : Z) : 0 <= v < 2 ^ bits -> to_uint bits v = v.
Proof. intros H. unfold to_uint. now apply Z.mod_small. Qed.

(** The branches of the geometry selection, for a sector count in range. *)
Lemma chs_select_cases (ts : Z) :
  0 <= ts <= 65535 * 16 * 255 ->
  (65535 * 16 * 63 <= ts /\ chs_select ts = mk_chs 255 16 (ts / 255))
  \/ (ts < 65535 * 16 * 63 /\ 16 * 1024 <= ts / 31
      /\ chs_select ts = mk_chs 63 16 (ts / 63))
  \/ (ts / 31 < 16 * 1024 /\ chs_select ts = mk_chs 31 16 (ts / 31))
  \/ (exists heads, 4 <= heads <= 16 /\ ts / 17 < heads * 1024
      /\ chs_select ts = mk_chs 17 heads (ts / 17)).
Proof.
  intros Hts. unfold chs_select.
  assert (H255 : 0 <= ts / 255 < 2 ^ 32)
    by (split; [apply Z.div_pos; lia | apply Z.div_lt_upper_bound; lia]).
  assert (H63 : 0 <= ts / 63 < 2 ^ 32)
    by (split; [apply Z.div_pos; lia | apply Z.div_lt_upper_bound; lia]).
  assert (H31 : 0 <= ts / 31 < 2 ^ 32)
    by (split; [apply Z.div_pos; lia | apply Z.div_lt_upper_bound; lia]).
  assert (H17 : 0 <= ts / 17 < 2 ^ 31)
    by (split; [apply Z.div_pos; lia | apply Z.div_lt_upper_bound; lia]).
  destruct (ts >=? 65535 * 16 * 63) eqn:Hbig.
  - left. rewrite to_uint_small by exact H255.
    apply Z.geb_le in Hbig. split; [lia|reflexivity].
  - right. rewrite Z.geb_leb, Z.leb_gt in Hbig.
    rewrite (to_uint_small 32 (ts / 17)) by lia.
    rewrite (to_uint_small 32 (ts / 17 + 1023)) by lia.
    rewrite (to_uint_small 32 (ts / 31)) by exact H31.
    rewrite (to_uint_small 32 (ts / 63)) by exact H63.
    set (h0 := to_uint 8 ((ts / 17 + 1023) / 1024)).
    assert (Hh0 : 0 <= h0 < 256)
      by (apply (Z.mod_pos_bound _ (2 ^ 8)); lia).
    set (h := if h0 <? 4 then 4 else h0).
    assert (Hh : 4 <= h < 256).
    { subst h. destruct (h0 <? 4) eqn:E; [lia|]. apply Z.ltb_ge in E. lia. }
    cbv zeta.
    rewrite (to_uint_small 32 (h * 1024)) by lia.
    destruct ((ts / 17 >=? h * 1024) || (h >? 16)) eqn:Hretry;
      cbn [v_cylinderTimesHeads v_heads].
    + change (to_uint 32 (16 * 1024)) with (16 * 1024).
      destruct (ts / 31 >=? 16 * 1024) eqn:H31big.
      * left. apply Z.geb_le in H31big. repeat split; lia.
      * right. left. rewrite Z.geb_leb, Z.leb_gt in H31big.
        split; [lia|reflexivity].
    + apply orb_false_iff in Hretry as [Hfit H16].
      rewrite Z.geb_leb, Z.leb_gt in Hfit. rewrite Z.gtb_ltb, Z.ltb_ge in H16.
      rewrite (to_uint_small 32 (h * 1024)) by lia.
      destruct (ts / 17 >=? h * 1024) eqn:Hagain;
        [apply Z.geb_le in Hagain; lia|].
      right. right. exists h. repeat split; lia.
Qed.

(** X3.  The CHS geometry always describes a disk that fits the image: for
    every image size, the heads are between 4 and 16, the sectors per track
    are 17, 31, 63 or 255, the cylinder count needs no truncation to 16
    bits, and cylinders x heads x sectors never exceeds the (clamped)
    sector count. *)
Theorem chs_geometry_fits (li : Z) :
  4 <= v_heads (chs_select (total_sectors li)) <= 16
  /\ In (v_sectorsPerTrack (chs_select (total_sectors li))) [17; 31; 63; 255]
  /\ 0 <= v_cylinderTimesHeads (chs_select (total_sectors li))
          / v_heads (chs_select (total_sectors li)) <= 65535
  /\ chs_cylinders_of (chs_select (total_sectors li))
     = v_cylinderTimesHeads (chs_select (total_sectors li))
       / v_heads (chs_select (total_sectors li))
  /\ chs_cylinders_of (chs_select (total_sectors li))
     * v_heads (chs_select (total_sectors li))
     * v_sectorsPerTrack (chs_select (total_sectors li))
     <= total_sectors li.
Proof.
  pose proof (total_sectors_range li) as Hts.
  set (ts := total_sectors li) in *.
  assert (Hcore : forall spt heads,
            4 <= heads <= 16 -> 0 < spt ->
            ts / spt / heads <= 65535 ->
            4 <= heads <= 16
            /\ 0 <= ts / spt / heads <= 65535
            /\ to_uint 16 (ts / spt / heads) = ts / spt / heads
            /\ to_uint 16 (ts / spt / heads) * heads * spt <= ts).
  { intros spt heads Hh Hspt Hcyl.
    assert (H0 : 0 <= ts / spt / heads)
      by (apply Z.div_pos; [apply Z.div_pos|]; lia).
    rewrite to_uint_small by lia.
    repeat split; try lia.
    pose proof (Z.mul_div_le (ts / spt) heads ltac:(lia)) as H1.
    pose proof (Z.mul_div_le ts spt Hspt) as H2.
    nia. }
  unfold chs_cylinders_of.
  destruct (chs_select_cases ts Hts)
    as [[Hbig ->]|[(Hlt & H31 & ->)|[[H31 ->]|(heads & Hh & Hfit & ->)]]];
    cbn [v_heads v_sectorsPerTrack v_cylinderTimesHeads].
  - destruct (Hcore 255 16) as (A & B & C & D); try lia.
    { apply Z.lt_succ_r, Z.div_lt_upper_bound; [lia|].
      apply Z.div_lt_upper_bound; lia. }
    repeat split; try lia. cbn. auto.
  - destruct (Hcore 63 16) as (A & B & C & D); try lia.
    { apply Z.lt_succ_r, Z.div_lt_upper_bound; [lia|].
      apply Z.div_lt_upper_bound; lia. }
    repeat split; try lia. cbn. auto.
  - destruct (Hcore 31 16) as (A & B & C & D); try lia.
    { apply Z.lt_succ_r, Z.div_lt_upper_bound; lia. }
    repeat split; try lia. cbn. auto.
  - destruct (Hcore 17 heads) as (A & B & C & D); try lia.
    { apply Z.lt_succ_r, Z.div_lt_upper_bound; lia. }
    repeat split; try lia. cbn. auto.
Qed.

Lemma chs_select_int_heads_agrees (ts : Z) :
  0 <= ts <= 65535 * 16 * 255 -> chs_select ts = chs_select_int_heads ts.
Proof.
  intros Hts. unfold chs_select, chs_select_int_heads.
  destruct (ts >=? 65535 * 16 * 63) eqn:Hbig; [reflexivity|].
  rewrite Z.geb_leb, Z.leb_gt in Hbig.
  assert (H17 : 0 <= ts / 17 < 2 ^ 31)
    by (split; [apply Z.div_pos; lia | apply Z.div_lt_upper_bound; lia]).
  rewrite (to_uint_small 32 (ts / 17)) by lia.
  rewrite (to_uint_small 32 (ts / 17 + 1023)) by lia.
  set (q := (ts / 17 + 1023) / 1024).
  assert (Hq : 0 <= q < 2 ^ 22).
  { subst q. split; [apply Z.div_pos; lia|].
    apply Z.div_lt_upper_bound; lia. }
  destruct (Z.lt_ge_cases q 256) as [Hsmall|Hlarge].
  - rewrite (to_uint_small 8 q) by lia. reflexivity.
  - assert (Hcth : 256 * 1024 <= ts / 17 + 1023).
    { pose proof (Z.mul_div_le (ts / 17 + 1023) 1024 ltac:(lia)) as Hm.
      fold q in Hm. lia. }
    cbv zeta.
    set (h := if to_uint 8 q <? 4 then 4 else to_uint 8 q).
    assert (Hh : 4 <= h < 256).
    { pose proof (Z.mod_pos_bound q (2 ^ 8) ltac:(lia)) as Hm.
      unfold to_uint in h. subst h.
      destruct (q mod 2 ^ 8 <? 4) eqn:E; [lia|]. apply Z.ltb_ge in E. lia. }
    replace (if q <? 4 then 4 else q) with q
      by (destruct (q <? 4) eqn:E; [apply Z.ltb_lt in E; lia|reflexivity]).
    rewrite (to_uint_small 32 (h * 1024)) by lia.
    rewrite (to_uint_small 32 (q * 1024)) by lia.
    replace (ts / 17 >=? h * 1024) with true
      by (symmetry; apply Z.geb_le; lia).
    replace (q >? 16) with true
      by (symmetry; rewrite Z.gtb_ltb; apply Z.ltb_lt; lia).
    rewrite orb_true_r. reflexivity.
Qed.

(** X4.  Holding [heads] in a [uint8_t] loses nothing: for every image size
    the geometry selected is the one the same lines select with [heads]
    held in an [int], although the value computed at line 177 can exceed
    255 (it is 3795 for an image one sector short of 65535*16*63
    sectors). *)
Theorem heads_truncation_harmless (li : Z) :
  chs_select (total_sectors li) = chs_select_int_heads (total_sectors li)
  /\ heads_at_line_177 (total_sectors ((65535 * 16 * 63 - 1) * 512)) = 3795.
Proof.
  split; [apply chs_select_int_heads_agrees, total_sectors_range|].
  reflexivity.
Qed.

Lemma total_sectors_small (li : Z) :
  0 <= li -> li / 512 <= 65535 * 16 * 255 -> total_sectors li = li / 512.
Proof.
  intros Hli Hq. unfold total_sectors.
  rewrite Z.quot_div_nonneg by lia.
  rewrite to_uint_small
    by (split; [apply Z.div_pos; lia | lia]).
  destruct (li / 512 >? 65535 * 16 * 255) eqn:Hc; [|reflexivity].
  rewrite Z.gtb_ltb in Hc. apply Z.ltb_lt in Hc. lia.
Qed.

(** X5.  Small images: every image of fewer than 4*1024*17 sectors, the
    empty file included, gets 4 heads and 17 sectors per track, and
    (size/512/17)/4 cylinders, stored big-endian. *)
Theorem small_image_geometry (e : footer_env) (li : Z) :
  0 <= li < 4 * 1024 * 17 * 512 ->
  chs_select (total_sectors li) = mk_chs 17 4 (li / 512 / 17)
  /\ chs_heads (make_footer e li) = 4
  /\ chs_sectors (make_footer e li) = 17
  /\ chs_cylinders (make_footer e li) = bswap_uint16 (li / 512 / 17 / 4).
Proof.
  intros Hli.
  assert (Hts : 0 <= li / 512 < 4 * 1024 * 17)
    by (split; [apply Z.div_pos; lia | apply Z.div_lt_upper_bound; lia]).
  assert (Hsel : chs_select (total_sectors li) = mk_chs 17 4 (li / 512 / 17)).
  { rewrite total_sectors_small by lia.
    set (ts := li / 512) in *.
    assert (H17 : 0 <= ts / 17 < 4 * 1024)
      by (split; [apply Z.div_pos; lia | apply Z.div_lt_upper_bound; lia]).
    unfold chs_select.
    replace (ts >=? 65535 * 16 * 63) with false
      by (symmetry; rewrite Z.geb_leb; apply Z.leb_gt; lia).
    rewrite (to_uint_small 32 (ts / 17)) by lia.
    rewrite (to_uint_small 32 (ts / 17 + 1023)) by lia.
    set (q := (ts / 17 + 1023) / 1024).
    assert (Hq : 0 <= q <= 4).
    { subst q. split; [apply Z.div_pos; lia|].
      apply Z.lt_succ_r, Z.div_lt_upper_bound; lia. }
    rewrite (to_uint_small 8 q) by lia.
    replace (if q <? 4 then 4 else q) with 4
      by (destruct (q <? 4) eqn:E; [reflexivity|apply Z.ltb_ge in E; lia]).
    cbv zeta. change (to_uint 32 (4 * 1024)) with 4096.
    replace (ts / 17 >=? 4096) with false
      by (symmetry; rewrite Z.geb_leb; apply Z.leb_gt; lia).
    cbn [orb Z.gtb Z.compare Pos.compare Pos.compare_cont
         v_cylinderTimesHeads v_heads].
    change (to_uint 32 (4 * 1024)) with 4096.
    replace (ts / 17 >=? 4096) with false
      by (symmetry; rewrite Z.geb_leb; apply Z.leb_gt; lia).
    reflexivity. }
  split; [exact Hsel|].
  unfold make_footer, set_checksum, footer_fields; footer_proj.
  rewrite Hsel. unfold chs_cylinders_of.
  cbn [v_heads v_sectorsPerTrack v_cylinderTimesHeads].
  repeat split.
  rewrite to_uint_small; [reflexivity|].
  split; [apply Z.div_pos; [apply Z.div_pos|]; lia|].
  apply Z.div_lt_upper_bound; [lia|]. apply Z.div_lt_upper_bound; lia.
Qed.

Lemma small_image_geometry_witness :
  chs_select (total_sectors 0) = mk_chs 17 4 (0 / 512 / 17)
  /\ chs_heads (make_footer sample_footer_env 0) = 4
  /\ chs_sectors (make_footer sample_footer_env 0) = 17
  /\ chs_cylinders (make_footer sample_footer_env 0)
     = bswap_uint16 (0 / 512 / 17 / 4).
Proof.
  apply (small_image_geometry sample_footer_env 0).
  vm_compute. split; congruence.
Defined.

(** ** What the checksum detects *)

Lemma sum_bytes_cons (x : Z) (l : list Z) :
  sum_bytes (x :: l) = x + sum_bytes l.
Proof. reflexivity. Qed.

Lemma sum_bytes_app (a b : list Z) :
  sum_bytes (a ++ b) = sum_bytes a + sum_bytes b.
Proof.
  unfold sum_bytes. induction a as [|x a IH]; cbn [app fold_right]; lia.
Qed.

Lemma byte_sum32_from (l : list Z) (acc : Z) :
  0 <= acc < 2 ^ 32 ->
  fold_left (fun checksum b => to_uint 32 (checksum + b)) l acc
  = (acc + sum_bytes l) mod 2 ^ 32.
Proof.
  revert acc. induction l as [|b l IH]; intros acc Hacc.
  - cbn [fold_left sum_bytes fold_right]. rewrite Z.add_0_r.
    symmetry. now apply Z.mod_small.
  - cbn [fold_left]. rewrite IH by (apply Z.mod_pos_bound; lia).
    unfold to_uint. rewrite Zplus_mod_idemp_l.
    rewrite sum_bytes_cons. f_equal. lia.
Qed.

Lemma byte_sum32_mod (l : list Z) : byte_sum32 l = sum_bytes l mod 2 ^ 32.
Proof.
  unfold byte_sum32. rewrite byte_sum32_from by lia. reflexivity.
Qed.

Lemma sum_bytes_poke (k : nat) (v : Z) (l : list Z) :
  (k < List.length l)%nat ->
  sum_bytes (firstn k l ++ v :: skipn (S k) l) = sum_bytes l - nth k l 0 + v.
Proof.
  revert k. induction l as [|x l IH]; intros k Hk; [cbn in Hk; lia|].
  destruct k as [|k].
  - cbn [firstn skipn app nth]. rewrite !sum_bytes_cons. lia.
  - cbn [firstn skipn app nth]. cbn [List.length] in Hk.
    rewrite !sum_bytes_cons, IH by lia. lia.
Qed.

Lemma sum_footer_bytes_poke_reserved (k : nat) (v : Z) (f : vhd_footer) :
  (k < List.length (reserved f))%nat ->
  sum_bytes (footer_bytes (set_checksum 0 (poke_reserved k v f)))
  = sum_bytes (footer_bytes (set_checksum 0 f)) - nth k (reserved f) 0 + v.
Proof.
  intros Hk. pose proof (sum_bytes_poke k v (reserved f) Hk) as Hpoke.
  unfold footer_bytes, set_checksum, poke_reserved; footer_proj.
  rewrite !sum_bytes_app. rewrite sum_bytes_app in Hpoke. lia.
Qed.

Lemma not32_inj_mod (a b : Z) :
  not32 (a mod 2 ^ 32) = not32 (b mod 2 ^ 32) -> a mod 2 ^ 32 = b mod 2 ^ 32.
Proof.
  unfold not32, to_uint, Z.lnot.
  pose proof (Z.mod_pos_bound a (2 ^ 32) ltac:(lia)) as Ha.
  pose proof (Z.mod_pos_bound b (2 ^ 32) ltac:(lia)) as Hb.
  set (x := a mod 2 ^ 32) in *. set (y := b mod 2 ^ 32) in *.
  assert (Hx : Z.pred (- x) mod 2 ^ 32 = 2 ^ 32 - 1 - x).
  { symmetry. apply (Z.mod_unique _ _ (-1)); lia. }
  assert (Hy : Z.pred (- y) mod 2 ^ 32 = 2 ^ 32 - 1 - y).
  { symmetry. apply (Z.mod_unique _ _ (-1)); lia. }
  rewrite Hx, Hy. lia.
Qed.

(** X6.  The checksum catches every change of one reserved byte: if a
    footer passes the checksum comparison of [IsHDImage] and one byte of
    its [reserved] area is replaced by a different byte, the comparison
    fails. *)
Theorem reserved_corruption_detected (f : vhd_footer) (k : nat) (v : Z) :
  checksum_matches f = true ->
  (k < List.length (reserved f))%nat ->
  0 <= v < 256 ->
  0 <= nth k (reserved f) 0 < 256 ->
  v <> nth k (reserved f) 0 ->
  checksum_matches (poke_reserved k v f) = false.
Proof.
  intros Hok Hk Hv Hold Hne.
  apply checksum_matches_spec in Hok.
  destruct (checksum_matches (poke_reserved k v f)) eqn:Hbad; [|reflexivity].
  exfalso. apply checksum_matches_spec in Hbad.
  replace (stored_checksum (poke_reserved k v f)) with (stored_checksum f)
    in Hbad by reflexivity.
  rewrite <- Hok in Hbad. unfold recomputed_checksum in Hbad.
  rewrite !byte_sum32_mod in Hbad. apply not32_inj_mod in Hbad.
  rewrite sum_footer_bytes_poke_reserved in Hbad by exact Hk.
  set (s0 := sum_bytes (footer_bytes (set_checksum 0 f))) in *.
  set (old := nth k (reserved f) 0) in *.
  pose proof (Z.div_mod (s0 - old + v) (2 ^ 32) ltac:(lia)) as H1.
  pose proof (Z.div_mod s0 (2 ^ 32) ltac:(lia)) as H2.
  rewrite Hbad in H1.
  set (q1 := (s0 - old + v) / 2 ^ 32) in *. set (q2 := s0 / 2 ^ 32) in *.
  set (m := s0 mod 2 ^ 32) in *.
  lia.
Qed.

Lemma reserved_corruption_detected_witness :
  checksum_matches (poke_reserved 10 1 sample_footer) = false.
Proof.
  assert (Hok : checksum_matches sample_footer = true)
    by apply make_footer_checksum_matches.
  assert (Hk : (10 < List.length (reserved sample_footer))%nat)
    by (vm_compute; repeat constructor).
  assert (Hv : 0 <= 1 < 256) by (vm_compute; split; congruence).
  assert (Hold : 0 <= nth 10 (reserved sample_footer) 0 < 256)
    by (vm_compute; split; congruence).
  assert (Hne : 1 <> nth 10 (reserved sample_footer) 0)
    by (vm_compute; discriminate).
  exact (reserved_corruption_detected sample_footer 10 1 Hok Hk Hv Hold Hne).
Defined.

(** ** IsCompressedBootableImage and the report *)

Lemma IsCompressedBootableImage_form (path : string) (r : iso_report_t) :
  IsCompressedBootableImage path r
  = (set_compression_type (path_type path) r, negb (uncompressed path)).
Proof.
  unfold uncompressed, path_type, fresh_report, IsCompressedBootableImage.
  destruct (Nat.eqb (scan_back path (String.length path - 1)) 0);
    [reflexivity|].
  destruct (match_ext _ blah) as [t|] eqn:Ht; [|reflexivity].
  apply match_ext_blah_not_none in Ht.
  cbn [fst compression_type set_compression_type]. rewrite Ht. reflexivity.
Qed.

Lemma uncompressed_path_type (path : string) :
  uncompressed path = is_none (path_type path).
Proof. reflexivity. Qed.

(** X7.  For every non-empty path, [IsCompressedBootableImage] returns
    [TRUE] exactly when it leaves a compression type other than none in the
    report; the type it leaves does not depend on what the report held
    before, and the other fields of the report are not touched. *)
Theorem IsCompressedBootableImage_report (path : string) (r r' : iso_report_t) :
  path <> ""%string ->
  snd (IsCompressedBootableImage path r)
  = negb (is_none (compression_type (fst (IsCompressedBootableImage path r))))
  /\ compression_type (fst (IsCompressedBootableImage path r))
     = compression_type (fst (IsCompressedBootableImage path r'))
  /\ is_bootable_img (fst (IsCompressedBootableImage path r))
     = is_bootable_img r
  /\ projected_size (fst (IsCompressedBootableImage path r))
     = projected_size r
  /\ is_vhd (fst (IsCompressedBootableImage path r)) = is_vhd r.
Proof.
  intros _.
  rewrite !IsCompressedBootableImage_form. cbn. repeat split; reflexivity.
Qed.

Lemma IsCompressedBootableImage_report_witness :
  snd (IsCompressedBootableImage "image.tar.gz" stale_report) = true
  /\ compression_type (fst (IsCompressedBootableImage "image.tar.gz" stale_report))
     = BLED_COMPRESSION_GZIP
  /\ is_bootable_img (fst (IsCompressedBootableImage "image.tar.gz" stale_report))
     = is_bootable_img stale_report
  /\ is_vhd (fst (IsCompressedBootableImage "image.tar.gz" stale_report))
     = is_vhd stale_report.
Proof.
  assert (Hpath : "image.tar.gz"%string <> ""%string) by discriminate.
  destruct (IsCompressedBootableImage_report "image.tar.gz" stale_report
              fresh_report Hpath) as (Hret & Htype & Hboot & _ & Hvhd).
  split; [rewrite Hret, Htype; reflexivity|].
  split; [rewrite Htype; reflexivity|].
  split; assumption.
Defined.

(** ** IsHDImage on an arbitrary file *)

Lemma IsHDImage_open_form (e : hd_env) (path : string) (r : iso_report_t)
  (image : list Z) :
  CreateFileU e path = Some image ->
  IsHDImage e path r
  = if negb (GetFileSizeEx_ok e)
    then (mk_iso_report (path_type path)
            (if uncompressed path then AnalyzeMBR e image else true)
            (projected_size r) (is_vhd r),
          [Could_not_get_image_size])
    else if uncompressed path && (Z.of_nat (List.length image) >=? 1024)
    then if negb (malloc_ok e) || negb (SetFilePointerEx_ok e)
            || negb (ReadFile_ok e)
         then (report_with_size e path image r, [Could_not_read_VHD_footer])
         else inspect_footer (trailing_footer image)
                (report_with_size e path image r)
    else (report_with_size e path image r, []).
Proof.
  intros Hopen. unfold IsHDImage. rewrite Hopen.
  rewrite IsCompressedBootableImage_form.
  unfold report_with_size, trailing_footer, last_sector.
  rewrite !uncompressed_path_type.
  unfold set_is_bootable_img, set_compression_type, set_projected_size.
  cbn [compression_type is_bootable_img projected_size is_vhd].
  change (512 + sizeof_vhd_footer) with 1024.
  destruct (is_none (path_type path)) eqn:Hnone; cbn [negb];
    cbn [compression_type is_bootable_img projected_size is_vhd];
    rewrite ?Hnone; reflexivity.
Qed.

(** X8.  Classifying twice changes nothing: running [IsHDImage] again on
    the report it produced, with the file and the system calls answering
    as before, yields the same report and prints the same lines. *)
Theorem IsHDImage_idempotent (e : hd_env) (path : string) (r : iso_report_t) :
  IsHDImage e path (fst (IsHDImage e path r)) = IsHDImage e path r.
Proof.
  destruct (CreateFileU e path) as [image|] eqn:Hopen.
  - rewrite (IsHDImage_open_form e path (fst (IsHDImage e path r)) image Hopen).
    rewrite (IsHDImage_open_form e path r image Hopen).
    unfold report_with_size, inspect_footer.
    generalize (trailing_footer image) as footer. intros footer.
    destruct (GetFileSizeEx_ok e), (uncompressed path),
      (Z.of_nat (List.length image) >=? 1024), (malloc_ok e),
      (SetFilePointerEx_ok e), (ReadFile_ok e),
      (bytes_eqb (cookie footer) conectix_str), (unsupported_vhd footer),
      (checksum_matches footer); reflexivity.
  - unfold IsHDImage. rewrite Hopen. reflexivity.
Qed.

(** X9.  [is_vhd] is only ever set: after [IsHDImage] the flag is true
    exactly when it was true before the call or the file could be opened,
    had no compressed extension, was at least 1024 bytes long, could be
    sized and read, and ended in a footer with the magic, version 1.0 and
    the fixed disk type.  A call never clears the flag. *)
Theorem is_vhd_only_set (e : hd_env) (path : string) (r : iso_report_t) :
  is_vhd (fst (IsHDImage e path r))
  = is_vhd r
    || match CreateFileU e path with
       | Some image => accepts_vhd e path image
       | None => false
       end.
Proof.
  destruct (CreateFileU e path) as [image|] eqn:Hopen.
  - rewrite (IsHDImage_open_form e path r image Hopen).
    unfold accepts_vhd, reads_footer, io_ok, report_with_size, inspect_footer.
    generalize (trailing_footer image) as footer. intros footer.
    destruct (GetFileSizeEx_ok e), (uncompressed path),
      (Z.of_nat (List.length image) >=? 1024), (malloc_ok e),
      (SetFilePointerEx_ok e), (ReadFile_ok e),
      (bytes_eqb (cookie footer) conectix_str), (unsupported_vhd footer),
      (checksum_matches footer), (is_vhd r); reflexivity.
  - unfold IsHDImage. rewrite Hopen. cbn [fst]. now rewrite orb_false_r.
Qed.



(** X11.  Files shorter than 1024 bytes are never taken for a VHD: even
    when such a file is nothing but a valid footer, [IsHDImage] does not
    read it, reports the whole file as payload and leaves [is_vhd] as it
    was. *)
Theorem short_file_not_inspected (e : hd_env) (path : string)
  (r : iso_report_t) (image : list Z) :
  (List.length image < 1024)%nat ->
  CreateFileU e path = Some image ->
  GetFileSizeEx_ok e = true ->
  IsHDImage e path r = (report_with_size e path image r, [])
  /\ projected_size (fst (IsHDImage e path r)) = Z.of_nat (List.length image)
  /\ is_vhd (fst (IsHDImage e path r)) = is_vhd r.
Proof.
  intros Hshort Hopen Hsize.
  rewrite (IsHDImage_open_form e path r image Hopen). rewrite Hsize.
  replace (Z.of_nat (List.length image) >=? 1024) with false
    by (symmetry; rewrite Z.geb_leb; apply Z.leb_gt; lia).
  rewrite andb_false_r. cbn [negb fst]. repeat split.
Qed.

Lemma short_file_not_inspected_witness :
  bytes_eqb (cookie (footer_of_bytes tiny_image)) conectix_str = true
  /\ projected_size
       (fst (IsHDImage (with_file sample_hd_env "tiny.vhd" tiny_image)
               "tiny.vhd" fresh_report)) = 512
  /\ is_vhd
       (fst (IsHDImage (with_file sample_hd_env "tiny.vhd" tiny_image)
               "tiny.vhd" fresh_report)) = false.
Proof.
  split; [vm_compute; reflexivity|].
  assert (Hshort : (List.length tiny_image < 1024)%nat)
    by (vm_compute; repeat constructor).
  destruct (short_file_not_inspected
              (with_file sample_hd_env "tiny.vhd" tiny_image) "tiny.vhd"
              fresh_report tiny_image Hshort eq_refl eq_refl)
    as (_ & Hsize & Hvhd).
  split; [rewrite Hsize; vm_compute; reflexivity | exact Hvhd].
Defined.



(** X13.  A failing size query does not stop [IsHDImage] from answering:
    when [GetFileSizeEx] fails the size and [is_vhd] in the report stay as
    they were, while the bootable flag already holds the verdict for this
    file, which is what the function returns. *)
Theorem size_query_failure (e : hd_env) (path : string) (r : iso_report_t)
  (image : list Z) :
  CreateFileU e path = Some image ->
  GetFileSizeEx_ok e = false ->
  IsHDImage e path r
  = (mk_iso_report (path_type path)
       (if uncompressed path then AnalyzeMBR e image else true)
       (projected_size r) (is_vhd r),
     [Could_not_get_image_size])
  /\ IsHDImage_result e path r
     = (if uncompressed path then AnalyzeMBR e image else true).
Proof.
  intros Hopen Hsize. unfold IsHDImage_result.
  rewrite (IsHDImage_open_form e path r image Hopen), Hsize.
  split; reflexivity.
Qed.

Lemma size_query_failure_witness :
  IsHDImage failing_size_env "disk.vhd" stale_report
  = (mk_iso_report BLED_COMPRESSION_NONE true 4096 true,
     [Could_not_get_image_size])
  /\ IsHDImage_result failing_size_env "disk.vhd" stale_report = true.
Proof.
  destruct (size_query_failure failing_size_env "disk.vhd" stale_report
              sample_vhd_image eq_refl eq_refl) as (H1 & H2).
  rewrite H1, H2. vm_compute. split; reflexivity.
Defined.

(** X14.  The size reported is the file size or the file size less 512,
    and it is the latter exactly when the footer block was reached and the
    last 512 bytes start with the magic: a failed allocation, seek or read,
    or a footer without the magic, leaves the whole file as payload. *)
Theorem projected_size_whole_or_stripped (e : hd_env) (path : string)
  (r : iso_report_t) (image : list Z) :
  CreateFileU e path = Some image ->
  GetFileSizeEx_ok e = true ->
  projected_size (fst (IsHDImage e path r))
  = if reads_footer e path image
       && bytes_eqb (cookie (trailing_footer image)) conectix_str
    then Z.of_nat (List.length image) - 512
    else Z.of_nat (List.length image).
Proof.
  intros Hopen Hsize.
  rewrite (IsHDImage_open_form e path r image Hopen), Hsize.
  unfold reads_footer, io_ok, report_with_size, inspect_footer.
  rewrite Hsize.
  generalize (trailing_footer image) as footer. intros footer.
  destruct (uncompressed path), (Z.of_nat (List.length image) >=? 1024),
    (malloc_ok e), (SetFilePointerEx_ok e), (ReadFile_ok e),
    (bytes_eqb (cookie footer) conectix_str), (unsupported_vhd footer),
    (checksum_matches footer); reflexivity.
Qed.

Lemma projected_size_whole_or_stripped_witness :
  projected_size (fst (IsHDImage failing_read_env "disk.vhd" fresh_report))
  = 1024
  /\ projected_size
       (fst (IsHDImage (with_file sample_hd_env "plain.img" plain_image)
               "plain.img" fresh_report)) = 1536.
Proof.
  split.
  - rewrite (projected_size_whole_or_stripped failing_read_env "disk.vhd"
               fresh_report sample_vhd_image eq_refl eq_refl).
    vm_compute. reflexivity.
  - rewrite (projected_size_whole_or_stripped
               (with_file sample_hd_env "plain.img" plain_image) "plain.img"
               fresh_report plain_image eq_refl eq_refl).
    vm_compute. reflexivity.
Defined.

(** ** Extensions *)

Local Open Scope string_scope.

(** X15.  A name that is nothing but a dot and an extension has no
    extension for [IsCompressedBootableImage]: when the only dot of the
    path is its first character the scan ends at index 0, the table is not
    consulted and the type is none, whatever follows the dot. *)
Theorem leading_dot_is_no_extension (extension : string) (r : iso_report_t) :
  no_dot extension = true ->
  IsCompressedBootableImage (String "." extension) r
  = (set_compression_type BLED_COMPRESSION_NONE r, false).
Proof.
  intros Hext. unfold IsCompressedBootableImage.
  replace (String.length (String "." extension) - 1)%nat
    with (String.length extension) by (cbn [String.length]; lia).
  pose proof (scan_back_final_dot "" extension (String.length extension) Hext)
    as H.
  cbn [String.append String.length Nat.add] in H. rewrite H. reflexivity.
Qed.

Lemma leading_dot_is_no_extension_witness :
  IsCompressedBootableImage ".gz" stale_report
  = (set_compression_type BLED_COMPRESSION_NONE stale_report, false).
Proof.
  apply (leading_dot_is_no_extension "gz" stale_report). reflexivity.
Defined.

Lemma scan_back_le (s : string) (p : nat) : (scan_back s p <= p)%nat.
Proof.
  induction p as [|p IH]; cbn [scan_back]; [apply Nat.le_refl|].
  destruct (is_dot_at s (S p)); [apply Nat.le_refl|]. lia.
Qed.

Lemma substring_split (s : string) (p : nat) :
  (p <= String.length s)%nat ->
  s = String.substring 0 p s ++ String.substring p (String.length s - p) s.
Proof.
  revert p. induction s as [|c s IH]; intros p Hp.
  - cbn [String.length] in Hp. replace p with 0%nat by lia. reflexivity.
  - destruct p as [|p].
    + cbn [String.substring String.append String.length Nat.sub].
      now rewrite substring_all.
    + cbn [String.length] in Hp.
      cbn [String.substring String.append String.length Nat.sub].
      f_equal. apply IH. lia.
Qed.

Lemma length_substring_prefix (s : string) (p : nat) :
  (p <= String.length s)%nat -> String.length (String.substring 0 p s) = p.
Proof.
  revert p. induction s as [|c s IH]; intros p Hp.
  - cbn [String.length] in Hp. replace p with 0%nat by lia. reflexivity.
  - destruct p as [|p]; [reflexivity|].
    cbn [String.length] in Hp. cbn [String.substring String.length].
    f_equal. apply IH. lia.
Qed.

Lemma match_ext_In (p : string) (table : list comp_assoc)
  (t : bled_compression_type) :
  match_ext p table = Some t ->
  exists a, In a table /\ p = ext a /\ t = type a.
Proof.
  induction table as [|a table IH]; cbn [match_ext]; [discriminate|].
  destruct (String.eqb p (ext a)) eqn:Heq.
  - intros H. apply String.eqb_eq in Heq. exists a.
    split; [left; reflexivity|]. split; [exact Heq|]. congruence.
  - intros H. destruct (IH H) as (a' & Hin & Hp & Ht).
    exists a'. split; [right; exact Hin|]. split; assumption.
Qed.

(** X16.  For every non-empty path, [IsCompressedBootableImage] answers
    [TRUE] only if the path is a non-empty stem followed by one of the five
    extensions of the table, and the type it records is that entry's. *)
Theorem compressed_only_by_table (path : string) (r : iso_report_t) :
  path <> "" ->
  snd (IsCompressedBootableImage path r) = true ->
  exists stem a,
    In a blah /\ stem <> "" /\ path = stem ++ ext a
    /\ compression_type (fst (IsCompressedBootableImage path r)) = type a.
Proof.
  intros _.
  unfold IsCompressedBootableImage.
  set (p := scan_back path (String.length path - 1)).
  assert (Hp : (p <= String.length path)%nat).
  { pose proof (scan_back_le path (String.length path - 1)). subst p. lia. }
  destruct (Nat.eqb p 0) eqn:Hz; [discriminate|].
  apply Nat.eqb_neq in Hz.
  destruct (match_ext (tail_from path p) blah) as [t|] eqn:Ht;
    [|discriminate].
  intros _. destruct (match_ext_In _ _ _ Ht) as (a & Hin & Htail & Htype).
  exists (String.substring 0 p path), a.
  split; [exact Hin|]. split; [|split].
  - intros Hempty. apply (f_equal String.length) in Hempty.
    rewrite length_substring_prefix in Hempty by exact Hp.
    cbn [String.length] in Hempty. contradiction.
  - rewrite <- Htail. unfold tail_from. now apply substring_split.
  - cbn [fst set_compression_type compression_type]. exact Htype.
Qed.

Lemma compressed_only_by_table_witness :
  exists stem a,
    In a blah /\ stem <> "" /\ "image.tar.gz" = stem ++ ext a
    /\ compression_type
         (fst (IsCompressedBootableImage "image.tar.gz" fresh_report))
       = type a.
Proof.
  apply (compressed_only_by_table "image.tar.gz" fresh_report);
    [discriminate | reflexivity].
Defined.

(** ** Probing for backends *)

Local Open Scope wim_scope.
Local Open Scope list_scope.

Lemma substring_whole (s : string) (k : nat) :
  (String.length s <= k)%nat -> String.substring 0 k s = s.
Proof.
  revert k. induction s as [|c s IH]; intros k Hk.
  - destruct k; reflexivity.
  - destruct k as [|k]; cbn [String.length] in Hk; [lia|].
    cbn [String.substring]. f_equal. apply IH. lia.
Qed.

Lemma safe_strcat_fits (dst_max : nat) (dst src : string) :
  (String.length dst + String.length src + 1 <= dst_max)%nat ->
  safe_strcat dst_max dst src = (dst ++ src)%string.
Proof.
  intros H. unfold safe_strcat. rewrite substring_whole by lia. reflexivity.
Qed.


(** X17.  What [WimExtractCheck] leaves behind: it returns the disjunction
    of the two flags it has just set; [has_wimgapi] is set exactly when all
    five entry points were found; [has_7z] is set only if the file named by
    [sevenzip_path] exists; a value found under the user's registry root is
    used whatever the machine's root holds, and the path is that value with
    the name of the executable appended as far as the [MAX_PATH] array
    allows, in full when the value has at most 252 characters; and one
    line is printed. *)
Theorem WimExtractCheck_sound (e : wim_env) (s : wim_state) :
  fst (WimExtractCheck e s)
  = has_wimgapi (snd (WimExtractCheck e s))
    || has_7z (snd (WimExtractCheck e s))
  /\ has_wimgapi (snd (WimExtractCheck e s)) = wimgapi_entry_points e
  /\ (has_7z (snd (WimExtractCheck e s)) = true ->
      access_ok e (sevenzip_path (snd (WimExtractCheck e s))) = true)
  /\ (fst (GetRegistryKeyStr e REGKEY_HKCU) = true ->
      sevenzip_path (snd (WimExtractCheck e s))
      = safe_strcat MAX_PATH (snd (GetRegistryKeyStr e REGKEY_HKCU)) "\7z.exe")
  /\ (fst (GetRegistryKeyStr e REGKEY_HKCU) = true ->
      (String.length (snd (GetRegistryKeyStr e REGKEY_HKCU)) <= 252)%nat ->
      sevenzip_path (snd (WimExtractCheck e s))
      = (snd (GetRegistryKeyStr e REGKEY_HKCU) ++ "\7z.exe")%string)
  /\ wim_trace (snd (WimExtractCheck e s))
     = wim_trace s
       ++ [Probe_reported (has_7z (snd (WimExtractCheck e s)))
                          (has_wimgapi (snd (WimExtractCheck e s)))].
Proof.
  assert (Hfits : forall buf : string,
            (String.length buf <= 252)%nat ->
            safe_strcat MAX_PATH buf "\7z.exe" = (buf ++ "\7z.exe")%string).
  { intros buf Hbuf. apply safe_strcat_fits.
    unfold MAX_PATH. cbn [String.length]. lia. }
  unfold WimExtractCheck, Get7ZipPath.
  destruct (GetRegistryKeyStr e REGKEY_HKCU) as [found1 buf1].
  destruct (GetRegistryKeyStr e REGKEY_HKLM) as [found2 buf2].
  destruct found1, found2; run_wim;
    try destruct (access_ok e (safe_strcat MAX_PATH buf1 "\7z.exe")) eqn:H1;
    try destruct (access_ok e (safe_strcat MAX_PATH buf2 "\7z.exe")) eqn:H2;
    repeat split; intros; try reflexivity; try discriminate;
    try assumption; apply Hfits; assumption.
Qed.

(** ** The two backends *)

Lemma count_events_app (p : wim_event -> bool) (a b : list wim_event) :
  count_events p (a ++ b) = (count_events p a + count_events p b)%nat.
Proof.
  unfold count_events. now rewrite filter_app, length_app.
Qed.

(** Unfold the monad, keeping event counts folded, then count. *)
Ltac count_wim :=
  unfold bind, ret, gets, emit, set_has_wimgapi, set_has_7z, set_sevenzip_path;
  cbn -[count_events app];
  rewrite ?count_events_app;
  cbn [count_events filter List.length is_probe is_close is_progress
       is_enter_API is_enter_7z].

Lemma same_registry_refl (s : wim_state) : same_registry s s.
Proof. repeat split. Qed.

Lemma same_registry_trans (s1 s2 s3 : wim_state) :
  same_registry s1 s2 -> same_registry s2 s3 -> same_registry s1 s3.
Proof.
  intros (A1 & A2 & A3 & A4) (B1 & B2 & B3 & B4).
  repeat split; congruence.
Qed.

Lemma WimExtractFile_7z_keeps_registry (e : wim_env) (image : string)
  (index : Z) (src dst : string) (s : wim_state) :
  same_registry s (snd (WimExtractFile_7z e image index src dst s)).
Proof.
  unfold WimExtractFile_7z, same_registry.
  destruct (CreateProcessU_ok e), (extracted e (artifact_path dst)),
    (rename_ok e); count_wim; repeat split; lia.
Qed.

Lemma WimExtractFile_API_keeps_registry (e : wim_env) (image : string)
  (index : Z) (src dst : string) (s : wim_state) :
  same_registry s (snd (WimExtractFile_API e image index src dst s)).
Proof.
  unfold WimExtractFile_API, close_handles, same_registry.
  destruct (wimgapi_entry_points e), (GetTempPathW_ok e), (WIMCreateFile_ok e),
    (WIMSetTemporaryPath_ok e), (WIMLoadImage_ok e), (WIMExtractImagePath_ok e);
    count_wim; repeat split; lia.
Qed.

(** The call with all three pointers set and a backend marked available,
    in terms of the two backend runs. *)
Lemma WimExtractFile_runs (e : wim_env) (image : string) (index : Z)
  (src dst : string) (s : wim_state) :
  has_wimgapi s || has_7z s = true ->
  WimExtractFile e (Some image) index (Some src) (Some dst) s
  = if has_7z s
    then if fst (WimExtractFile_7z e image index src dst s)
         then (true, snd (WimExtractFile_7z e image index src dst s))
         else if has_wimgapi s
              then WimExtractFile_API e image index src dst
                     (snd (WimExtractFile_7z e image index src dst s))
              else (false, snd (WimExtractFile_7z e image index src dst s))
    else WimExtractFile_API e image index src dst s.
Proof.
  intros H. rewrite WimExtractFile_dispatch by exact H.
  destruct (WimExtractFile_7z_keeps_registry e image index src dst s)
    as (Hw & _).
  unfold bind, ret, gets.
  destruct (has_7z s) eqn:H7.
  - destruct (WimExtractFile_7z e image index src dst s) as [r7 s7].
    cbn [fst snd] in *. destruct r7; [reflexivity|].
    rewrite Hw. destruct (has_wimgapi s); reflexivity.
  - rewrite orb_false_r in H. rewrite H. reflexivity.
Qed.

(** X18.  The probe result is cached: once a backend is marked available,
    no call to [WimExtractFile], whatever its arguments and whatever the
    backends do, changes [has_wimgapi], [has_7z] or [sevenzip_path], and
    the probe is not run again. *)
Theorem probe_result_is_cached (e : wim_env) (s : wim_state)
  (image : option string) (index : Z) (src dst : option string) :
  has_wimgapi s || has_7z s = true ->
  same_registry s (snd (WimExtractFile e image index src dst s)).
Proof.
  intros H.
  destruct image as [image|], src as [src|], dst as [dst|];
    try (unfold WimExtractFile; destruct s as [hw h7 p t];
         cbn [has_wimgapi has_7z] in H;
         destruct hw, h7; try discriminate; run_wim;
         apply same_registry_refl).
  rewrite WimExtractFile_runs by exact H.
  pose proof (WimExtractFile_7z_keeps_registry e image index src dst s) as H7.
  pose proof (WimExtractFile_API_keeps_registry e image index src dst s) as HA.
  pose proof (WimExtractFile_API_keeps_registry e image index src dst
                (snd (WimExtractFile_7z e image index src dst s))) as HA7.
  destruct (has_7z s); [|exact HA].
  destruct (fst (WimExtractFile_7z e image index src dst s)); [exact H7|].
  destruct (has_wimgapi s); [|exact H7].
  exact (same_registry_trans _ _ _ H7 HA7).
Qed.

Lemma probe_result_is_cached_witness :
  same_registry probed
    (snd (WimExtractFile sample_wim_env (Some "D:\sources\install.wim") 1
            (Some "Windows\Boot\EFI\bootmgfw.efi")
            (Some "E:\efi\boot\bootx64.efi") probed)).
Proof.
  apply (probe_result_is_cached sample_wim_env probed). reflexivity.
Defined.

Lemma WimExtractFile_7z_never_enters_API (e : wim_env) (image : string)
  (index : Z) (src dst : string) (s : wim_state) :
  count_events is_enter_API
    (wim_trace (snd (WimExtractFile_7z e image index src dst s)))
  = count_events is_enter_API (wim_trace s).
Proof.
  unfold WimExtractFile_7z.
  destruct (CreateProcessU_ok e), (extracted e (artifact_path dst)),
    (rename_ok e); count_wim; lia.
Qed.

(** X19.  A successful 7-Zip run ends the call: when [has_7z] is set and
    [WimExtractFile_7z] returns [TRUE], [WimExtractFile] returns [TRUE] in
    the state the 7-Zip run left, and [WimExtractFile_API] is not entered,
    whether or not wimgapi.dll is available. *)
Theorem tool_success_short_circuits (e : wim_env) (s : wim_state)
  (image : string) (index : Z) (src dst : string) :
  has_7z s = true ->
  fst (WimExtractFile_7z e image index src dst s) = true ->
  WimExtractFile e (Some image) index (Some src) (Some dst) s
  = (true, snd (WimExtractFile_7z e image index src dst s))
  /\ count_events is_enter_API
       (wim_trace (snd (WimExtractFile e (Some image) index (Some src)
                          (Some dst) s)))
     = count_events is_enter_API (wim_trace s).
Proof.
  intros H7 Hok.
  assert (Hcall : WimExtractFile e (Some image) index (Some src) (Some dst) s
                  = (true, snd (WimExtractFile_7z e image index src dst s))).
  { rewrite WimExtractFile_runs by (rewrite H7; apply orb_true_r).
    rewrite H7, Hok. reflexivity. }
  split; [exact Hcall|]. rewrite Hcall. cbn [snd].
  apply WimExtractFile_7z_never_enters_API.
Qed.

Lemma tool_success_short_circuits_witness :
  fst (WimExtractFile sample_wim_env_7z (Some "D:\sources\install.wim") 1
         (Some "Windows\Boot\EFI\bootmgfw.efi")
         (Some "E:\efi\boot\bootx64.efi") probed) = true
  /\ count_events is_enter_API
       (wim_trace
          (snd (WimExtractFile sample_wim_env_7z
                  (Some "D:\sources\install.wim") 1
                  (Some "Windows\Boot\EFI\bootmgfw.efi")
                  (Some "E:\efi\boot\bootx64.efi") probed))) = 0%nat.
Proof.
  destruct (tool_success_short_circuits sample_wim_env_7z probed
              "D:\sources\install.wim" 1 "Windows\Boot\EFI\bootmgfw.efi"
              "E:\efi\boot\bootx64.efi" eq_refl eq_refl) as (Hcall & Hcount).
  split; [rewrite Hcall; reflexivity | exact Hcount].
Defined.

(** X20.  A backend that is not marked available is skipped silently: with
    [has_7z] clear the call is the API run alone, and with [has_wimgapi]
    clear it is the 7-Zip run alone, whose failure is then the result. *)
Theorem unavailable_backend_skipped (e : wim_env) (s : wim_state)
  (image : string) (index : Z) (src dst : string) :
  has_wimgapi s || has_7z s = true ->
  (has_7z s = false ->
   WimExtractFile e (Some image) index (Some src) (Some dst) s
   = WimExtractFile_API e image index src dst s)
  /\ (has_wimgapi s = false ->
      WimExtractFile e (Some image) index (Some src) (Some dst) s
      = WimExtractFile_7z e image index src dst s).
Proof.
  intros H. rewrite WimExtractFile_runs by exact H. split.
  - intros ->. reflexivity.
  - intros Hw. rewrite Hw in *. cbn [orb] in H. rewrite H.
    destruct (WimExtractFile_7z e image index src dst s) as [r7 s7].
    cbn [fst snd]. destruct r7; reflexivity.
Qed.

Lemma unavailable_backend_skipped_witness :
  WimExtractFile sample_wim_env (Some "D:\sources\install.wim") 1
    (Some "Windows\Boot\EFI\bootmgfw.efi") (Some "E:\efi\boot\bootx64.efi")
    tool_only
  = WimExtractFile_7z sample_wim_env "D:\sources\install.wim" 1
      "Windows\Boot\EFI\bootmgfw.efi" "E:\efi\boot\bootx64.efi" tool_only.
Proof.
  destruct (unavailable_backend_skipped sample_wim_env tool_only
              "D:\sources\install.wim" 1 "Windows\Boot\EFI\bootmgfw.efi"
              "E:\efi\boot\bootx64.efi" eq_refl) as (_ & H).
  exact (H eq_refl).
Defined.

(** X21.  [WimExtractFile_API] releases what it opened on every exit path:
    the number of [WIMCloseHandle] calls it makes is the number of handles
    it obtained from [WIMCreateFile] and [WIMLoadImage], whichever step
    fails. *)
Theorem api_releases_handles (e : wim_env) (image : string) (index : Z)
  (src dst : string) (s : wim_state) :
  count_events is_close
    (wim_trace (snd (WimExtractFile_API e image index src dst s)))
  = (count_events is_close (wim_trace s)
     + (if api_opens_wim e then 1 else 0)
     + (if api_opens_image e then 1 else 0))%nat.
Proof.
  unfold WimExtractFile_API, close_handles, api_opens_image, api_opens_wim.
  destruct (wimgapi_entry_points e), (GetTempPathW_ok e), (WIMCreateFile_ok e),
    (WIMSetTemporaryPath_ok e), (WIMLoadImage_ok e), (WIMExtractImagePath_ok e);
    count_wim; lia.
Qed.

Lemma api_progress_count (e : wim_env) (image : string) (index : Z)
  (src dst : string) (s : wim_state) :
  count_events is_progress
    (wim_trace (snd (WimExtractFile_API e image index src dst s)))
  = (count_events is_progress (wim_trace s)
     + (if fst (WimExtractFile_API e image index src dst s) then 1 else 0))%nat.
Proof.
  unfold WimExtractFile_API, close_handles.
  destruct (wimgapi_entry_points e), (GetTempPathW_ok e),
    (WIMCreateFile_ok e), (WIMSetTemporaryPath_ok e), (WIMLoadImage_ok e),
    (WIMExtractImagePath_ok e); count_wim; lia.
Qed.

Lemma tool_progress_count (e : wim_env) (image : string) (index : Z)
  (src dst : string) (s : wim_state) :
  count_events is_progress
    (wim_trace (snd (WimExtractFile_7z e image index src dst s)))
  = (count_events is_progress (wim_trace s)
     + (if CreateProcessU_ok e then 1 else 0))%nat.
Proof.
  unfold WimExtractFile_7z.
  destruct (CreateProcessU_ok e), (extracted e (artifact_path dst)),
    (rename_ok e); count_wim; lia.
Qed.

(** X22.  When completion is reported: [WimExtractFile_API] calls
    [UpdateProgress] exactly when it returns [TRUE], whereas
    [WimExtractFile_7z] calls it whenever 7z.exe could be launched, before
    it checks that anything was extracted, so also on runs that return
    [FALSE]. *)
Theorem progress_reports (e : wim_env) (image : string) (index : Z)
  (src dst : string) (s : wim_state) :
  count_events is_progress
    (wim_trace (snd (WimExtractFile_API e image index src dst s)))
  = (count_events is_progress (wim_trace s)
     + (if fst (WimExtractFile_API e image index src dst s) then 1 else 0))%nat
  /\ count_events is_progress
       (wim_trace (snd (WimExtractFile_7z e image index src dst s)))
     = (count_events is_progress (wim_trace s)
        + (if CreateProcessU_ok e then 1 else 0))%nat
  /\ (CreateProcessU_ok e = true ->
      extracted e (artifact_path dst) = false ->
      fst (WimExtractFile_7z e image index src dst s) = false).
Proof.
  split; [apply api_progress_count|]. split; [apply tool_progress_count|].
  intros Hlaunch Habsent.
  now rewrite (WimExtractFile_7z_artifact_absent e image index src dst s
                 Hlaunch Habsent).
Qed.

(** X23.  Completion can be reported twice for one extraction: when the
    7-Zip run leaves no artifact and the API backend then succeeds,
    [WimExtractFile] returns [TRUE] after two calls of [UpdateProgress]. *)
Theorem fallback_reports_twice (e : wim_env) (s : wim_state) (image : string)
  (index : Z) (src dst : string) :
  has_7z s = true ->
  has_wimgapi s = true ->
  CreateProcessU_ok e = true ->
  extracted e (artifact_path dst) = false ->
  fst (WimExtractFile_API e image index src dst
         (snd (WimExtractFile_7z e image index src dst s))) = true ->
  fst (WimExtractFile e (Some image) index (Some src) (Some dst) s) = true
  /\ count_events is_progress
       (wim_trace (snd (WimExtractFile e (Some image) index (Some src)
                          (Some dst) s)))
     = (count_events is_progress (wim_trace s) + 2)%nat.
Proof.
  intros H7 Hw Hlaunch Habsent Hapi.
  pose proof (WimExtractFile_7z_artifact_absent e image index src dst s
                Hlaunch Habsent) as Htool.
  rewrite WimExtractFile_runs by (rewrite H7; apply orb_true_r).
  rewrite H7, Hw.
  replace (fst (WimExtractFile_7z e image index src dst s)) with false
    by (rewrite Htool; reflexivity).
  split; [exact Hapi|].
  rewrite api_progress_count, Hapi, tool_progress_count, Hlaunch. lia.
Qed.

Lemma fallback_reports_twice_witness :
  fst (WimExtractFile sample_wim_env (Some "D:\sources\install.wim") 1
         (Some "Windows\Boot\EFI\bootmgfw.efi")
         (Some "E:\efi\boot\bootx64.efi") probed) = true
  /\ count_events is_progress
       (wim_trace
          (snd (WimExtractFile sample_wim_env (Some "D:\sources\install.wim")
                  1 (Some "Windows\Boot\EFI\bootmgfw.efi")
                  (Some "E:\efi\boot\bootx64.efi") probed)))
     = (count_events is_progress (wim_trace probed) + 2)%nat.
Proof.
  apply (fallback_reports_twice sample_wim_env probed
           "D:\sources\install.wim" 1 "Windows\Boot\EFI\bootmgfw.efi"
           "E:\efi\boot\bootx64.efi"); reflexivity.
Defined.

(** X24.  Without a backend nothing is attempted: when neither flag is set
    and the probe finds neither wimgapi.dll nor 7-Zip, [WimExtractFile]
    returns [FALSE] for any arguments, and all it has done is the probe. *)
Theorem no_backend_no_extraction (e : wim_env) (s : wim_state)
  (image : option string) (index : Z) (src dst : option string) :
  has_wimgapi s = false ->
  has_7z s = false ->
  fst (WimExtractCheck e s) = false ->
  WimExtractFile e image index src dst s = (false, snd (WimExtractCheck e s)).
Proof.
  intros Hw H7 Hprobe. unfold WimExtractFile, bind, gets, ret.
  rewrite Hw, H7. cbn [negb andb].
  destruct (WimExtractCheck e s) as [found s']. cbn [fst snd] in *.
  subst found. reflexivity.
Qed.

Lemma no_backend_no_extraction_witness :
  WimExtractFile bare_wim_env (Some "D:\sources\install.wim") 1
    (Some "Windows\Boot\EFI\bootmgfw.efi") (Some "E:\efi\boot\bootx64.efi")
    unprobed
  = (false, mk_wim_state false false "" [Probe_reported false false]).
Proof.
  rewrite (no_backend_no_extraction bare_wim_env unprobed
             (Some "D:\sources\install.wim") 1
             (Some "Windows\Boot\EFI\bootmgfw.efi")
             (Some "E:\efi\boot\bootx64.efi") eq_refl eq_refl eq_refl).
  reflexivity.
Defined.

(** ** The directory 7z.exe works in *)







(** ** More on the footer and the report *)

Local Open Scope Z_scope.

Lemma sum_bytes_bound (l : list Z) :
  Forall is_byte l -> 0 <= sum_bytes l <= 255 * Z.of_nat (List.length l).
Proof.
  induction 1 as [|b l Hb Hl IH].
  - cbn. lia.
  - rewrite sum_bytes_cons. cbn [List.length]. unfold is_byte in Hb. lia.
Qed.

Lemma chars_is_byte (s : string) : Forall is_byte (chars s).
Proof.
  unfold chars. apply Forall_forall. intros b Hb.
  apply in_map_iff in Hb as (c & <- & _).
  pose proof (nat_ascii_bounded c). unfold is_byte. lia.
Qed.

Lemma footer_fields_bytes (e : footer_env) (li : Z) :
  Forall is_byte (footer_bytes (footer_fields e li)).
Proof.
  unfold footer_bytes, footer_fields; footer_proj.
  repeat (apply Forall_app; split);
    try apply le_bytes_is_byte; try apply chars_is_byte.
  apply Forall_forall. intros b Hb. apply repeat_spec in Hb. subst b.
  unfold is_byte. lia.
Qed.

Lemma not32_small (x : Z) : 0 <= x < 2 ^ 32 -> not32 x = 2 ^ 32 - 1 - x.
Proof.
  intros Hx. unfold not32, to_uint, Z.lnot.
  symmetry. apply (Z.mod_unique _ _ (-1)); lia.
Qed.

(** X26.  The checksum loop never wraps: the bytes of a footer sum to at
    most 512*255, so for every image size and environment the checksum
    [AppendVHDFooter] stores is 0xFFFFFFFF less the plain sum of the other
    bytes, and lies between 0xFFFE01FF and 0xFFFFFFFF. *)
Theorem encoded_checksum_never_wraps (e : footer_env) (li : Z) :
  byte_sum32 (footer_bytes (footer_fields e li))
  = sum_bytes (footer_bytes (footer_fields e li))
  /\ stored_checksum (make_footer e li)
     = 0xFFFFFFFF - sum_bytes (footer_bytes (footer_fields e li))
  /\ 0xFFFE01FF <= stored_checksum (make_footer e li) <= 0xFFFFFFFF.
Proof.
  pose proof (sum_bytes_bound _ (footer_fields_bytes e li)) as Hsum.
  rewrite (length_footer_bytes _ (footer_fields_wf e li)) in Hsum.
  assert (Hnowrap : byte_sum32 (footer_bytes (footer_fields e li))
                    = sum_bytes (footer_bytes (footer_fields e li))).
  { rewrite byte_sum32_mod. apply Z.mod_small. lia. }
  assert (Hstored : stored_checksum (make_footer e li)
                    = 0xFFFFFFFF
                      - sum_bytes (footer_bytes (footer_fields e li))).
  { unfold make_footer. rewrite stored_checksum_set by apply not32_range.
    rewrite Hnowrap, not32_small by lia. lia. }
  split; [exact Hnowrap|]. split; [exact Hstored|].
  rewrite Hstored. lia.
Qed.

(** X27.  Once the file opens the verdict is fresh: the compression type,
    the bootable flag and the lines printed do not depend on what the
    report held before the call, and neither does the size when the size
    query succeeds; only [is_vhd] (and the size after a failed query) can
    carry over from an earlier call. *)
Theorem opened_file_verdict_is_fresh (e : hd_env) (path : string)
  (r r' : iso_report_t) (image : list Z) :
  CreateFileU e path = Some image ->
  compression_type (fst (IsHDImage e path r))
  = compression_type (fst (IsHDImage e path r'))
  /\ is_bootable_img (fst (IsHDImage e path r))
     = is_bootable_img (fst (IsHDImage e path r'))
  /\ snd (IsHDImage e path r) = snd (IsHDImage e path r')
  /\ (GetFileSizeEx_ok e = true ->
      projected_size (fst (IsHDImage e path r))
      = projected_size (fst (IsHDImage e path r'))).
Proof.
  intros Hopen.
  rewrite (IsHDImage_open_form e path r image Hopen).
  rewrite (IsHDImage_open_form e path r' image Hopen).
  unfold report_with_size, inspect_footer.
  generalize (trailing_footer image) as footer. intros footer.
  destruct (GetFileSizeEx_ok e), (uncompressed path),
    (Z.of_nat (List.length image) >=? 1024), (malloc_ok e),
    (SetFilePointerEx_ok e), (ReadFile_ok e),
    (bytes_eqb (cookie footer) conectix_str), (unsupported_vhd footer),
    (checksum_matches footer); repeat split; try reflexivity;
    intros; discriminate.
Qed.

Lemma opened_file_verdict_is_fresh_witness :
  is_bootable_img
    (fst (IsHDImage (with_file sample_hd_env "plain.img" plain_image)
            "plain.img" stale_report))
  = is_bootable_img
      (fst (IsHDImage (with_file sample_hd_env "plain.img" plain_image)
              "plain.img" fresh_report)).
Proof.
  destruct (opened_file_verdict_is_fresh
              (with_file sample_hd_env "plain.img" plain_image)
              "plain.img" stale_report fresh_report plain_image eq_refl)
    as (_ & H & _).
  exact H.
Defined.
